(** * wix_preorder_ingestion.py: a shallow embedding

    The script reads a CSV of pre-order articles, builds one Wix Stores v1
    product payload per row and creates it through the Wix REST API.  This
    file embeds the parts of the script that decide prices, descriptions,
    categories, payload pruning, the per-row control flow and the exit code,
    together with the CSV row normalisation, [slugify], [prefer_english]
    and the request helpers.

    Modelling conventions.
    - Python [float] is IEEE-754 binary64, modelled with the Standard
      Library's [spec_float] at precision 53 and maximal exponent 1024,
      rounding to nearest, ties to even (as CPython does).
    - Python [str] values are modelled as ASCII [string]s; on ASCII text
      [unicodedata.normalize("NFKD", s).encode("ascii","ignore")] is the
      identity, so [normalize_name] and [slugify] drop that step.
    - JSON payloads and responses are the inductive [json].
    - The remote Wix API and the manufacturer page scraper
      ([fetch_from_page], which catches all its own errors) are oracles
      given as Section variables; every remote request is recorded in the
      world state so that the effects of a run can be observed. *)

Set Warnings "-register-all".
From Stdlib Require Import ZArith String Ascii List Bool QArith Lia.
From Stdlib Require Import Floats.SpecFloat DecimalString.
Import ListNotations.
Open Scope string_scope.

(* ================================================================== *)
(** ** Python floats *)
Module PyFloat.

Definition prec : Z := 53.
Definition emax : Z := 1024.

Definition float : Type := spec_float.

Definition fmul (x y : float) : float := SFmul prec emax x y.
Definition fdiv (x y : float) : float := SFdiv prec emax x y.
Definition fltb (x y : float) : bool := SFltb x y.

(** The double nearest to the rational [n / d] (ties to even): the
    correctly rounded division of the two exact integers.  This is what
    CPython's [_Py_dg_strtod] returns for a decimal literal. *)
Definition nearest_ratio (n : Z) (d : positive) : float :=
  match n with
  | Z0 => S754_zero false
  | Zpos p => fdiv (S754_finite false p 0) (S754_finite false d 0)
  | Zneg p => fdiv (S754_finite true p 0) (S754_finite false d 0)
  end.

(** The Python literals [0.30], [0.95] and [1000.0]. *)
Definition lit_0_30 : float := nearest_ratio 30 100.
Definition lit_0_95 : float := nearest_ratio 95 100.
Definition lit_1000 : float := nearest_ratio 1000 1.

(** [a / b] rounded to the nearest integer, ties to even ([a >= 0]). *)
Definition round_half_even_div (a : Z) (b : positive) : Z :=
  let '(q, r) := Z.div_eucl a (Zpos b) in
  match Z.compare (2 * r) (Zpos b) with
  | Lt => q
  | Gt => q + 1
  | Eq => if Z.even q then q else q + 1
  end.

(** CPython's [round(x, 2)] ([float___round___impl], [double_round]):
    the exact binary value of [x] is rounded to two decimals, ties to even
    ([_Py_dg_dtoa] in mode 3), and the resulting decimal string is read
    back with [_Py_dg_strtod].  Non-finite values and zeros round to
    themselves, and so does every finite [x] with a non-negative binary
    exponent, which is an integer. *)
Definition py_round2 (x : float) : float :=
  match x with
  | S754_finite s m e =>
      if (0 <=? e)%Z then x
      else
        match round_half_even_div (Zpos m * 100) (Z.to_pos (2 ^ (- e))) with
        | Zpos k => fdiv (S754_finite s k 0) (S754_finite false 100 0)
        | _ => S754_zero s
        end
  | _ => x
  end.

(** The exact rational value of a finite float. *)
Definition sf_value (x : float) : option Q :=
  match x with
  | S754_zero _ => Some 0%Q
  | S754_finite s m e =>
      let n := if s then Zneg m else Zpos m in
      if (0 <=? e)%Z then Some (inject_Z (n * 2 ^ e))
      else Some (n # Z.to_pos (2 ^ (- e)))
  | _ => None
  end.

(** Strict positivity of a float, Python's [x > 0]. *)
Definition fpos (x : float) : bool := fltb (S754_zero false) x.

End PyFloat.
Import PyFloat.

(* ================================================================== *)
(** ** [compute_prices] *)

(** [def compute_prices(base)]: deposit 30 %, full payment 95 %. *)
Definition compute_prices (base : float) : float * float :=
  let deposito := py_round2 (fmul base lit_0_30) in
  let anticipato := py_round2 (fmul base lit_0_95) in
  (deposito, anticipato).

(* ================================================================== *)
(** ** Python string methods on ASCII text *)
Module PyStr.

(** [str.isspace] on ASCII: \t \n \v \f \r, the separators \x1c-\x1f and
    the space; also the class [\s] of [re] on [str] patterns. *)
Definition is_space (c : ascii) : bool :=
  let n := nat_of_ascii c in
  ((9 <=? n) && (n <=? 13))%nat || ((28 <=? n) && (n <=? 32))%nat.

Fixpoint lstrip (s : string) : string :=
  match s with
  | EmptyString => EmptyString
  | String c t => if is_space c then lstrip t else s
  end.

Definition rev_str (s : string) : string :=
  string_of_list_ascii (rev (list_ascii_of_string s)).

(** [s.strip()] *)
Definition strip (s : string) : string := rev_str (lstrip (rev_str (lstrip s))).

(** [s.strip(ch)] for a single character [ch]. *)
Fixpoint lstrip_char (ch : ascii) (s : string) : string :=
  match s with
  | EmptyString => EmptyString
  | String c t => if Ascii.eqb c ch then lstrip_char ch t else s
  end.
Definition strip_char (ch : ascii) (s : string) : string :=
  rev_str (lstrip_char ch (rev_str (lstrip_char ch s))).

Definition lower_char (c : ascii) : ascii :=
  let n := nat_of_ascii c in
  if ((65 <=? n) && (n <=? 90))%nat then ascii_of_nat (n + 32) else c.
Definition upper_char (c : ascii) : ascii :=
  let n := nat_of_ascii c in
  if ((97 <=? n) && (n <=? 122))%nat then ascii_of_nat (n - 32) else c.

Fixpoint map_str (f : ascii -> ascii) (s : string) : string :=
  match s with
  | EmptyString => EmptyString
  | String c t => String (f c) (map_str f t)
  end.

(** [s.lower()] and [s.upper()] *)
Definition lower (s : string) : string := map_str lower_char s.
Definition upper (s : string) : string := map_str upper_char s.

(** [s.startswith(p)] *)
Definition startswith (s p : string) : bool := String.prefix p s.

(** [s[:n]] *)
Definition take (n : nat) (s : string) : string := substring 0 n s.

(** [s.split(sep)] for a one-character separator. *)
Fixpoint split_char (sep : ascii) (s : string) : list string :=
  match s with
  | EmptyString => [EmptyString]
  | String c t =>
      if Ascii.eqb c sep then EmptyString :: split_char sep t
      else match split_char sep t with
           | w :: ws => String c w :: ws
           | [] => [String c EmptyString]
           end
  end.

(** [re.sub(r"\s+", " ", s)] *)
Fixpoint collapse_spaces_aux (in_run : bool) (s : string) : string :=
  match s with
  | EmptyString => EmptyString
  | String c t =>
      if is_space c then
        if in_run then collapse_spaces_aux true t
        else String " " (collapse_spaces_aux true t)
      else String c (collapse_spaces_aux false t)
  end.
Definition collapse_spaces (s : string) : string := collapse_spaces_aux false s.

(** ASCII letters and digits, the class [a-zA-Z0-9]. *)
Definition is_alnum (c : ascii) : bool :=
  let n := nat_of_ascii c in
  ((48 <=? n) && (n <=? 57))%nat || ((65 <=? n) && (n <=? 90))%nat
  || ((97 <=? n) && (n <=? 122))%nat.

(** Python's [\w] on ASCII text: letters, digits and the underscore. *)
Definition is_word (c : ascii) : bool := is_alnum c || Ascii.eqb c "_"%char.

(** [re.sub(r"[^a-zA-Z0-9]+", "-", s)] *)
Fixpoint dash_runs_aux (in_run : bool) (s : string) : string :=
  match s with
  | EmptyString => EmptyString
  | String c t =>
      if is_alnum c then String c (dash_runs_aux false t)
      else if in_run then dash_runs_aux true t
      else String "-" (dash_runs_aux true t)
  end.
Definition dash_runs (s : string) : string := dash_runs_aux false s.

Definition is_digit (c : ascii) : bool :=
  let n := nat_of_ascii c in ((48 <=? n) && (n <=? 57))%nat.
Definition digit_val (c : ascii) : Z := Z.of_nat (nat_of_ascii c - 48).

End PyStr.

(* ================================================================== *)
(** ** JSON values and [prune] *)

Inductive json : Type :=
  | JNull
  | JBool (b : bool)
  | JInt (z : Z)
  | JFloat (f : float)
  | JStr (s : string)
  | JArr (l : list json)
  | JObj (kv : list (string * json)).

(** The test [pv in (None, "", {}, [])]. *)
Definition is_empty_value (j : json) : bool :=
  match j with
  | JNull => true
  | JStr EmptyString => true
  | JArr [] => true
  | JObj [] => true
  | _ => false
  end.

(** [def prune(x)] *)
Fixpoint prune (x : json) : json :=
  match x with
  | JObj kv =>
      JObj (filter (fun kv => negb (is_empty_value (snd kv)))
                   (map (fun '(k, v) => (k, prune v)) kv))
  | JArr l => JArr (filter (fun v => negb (is_empty_value v)) (map prune l))
  | _ => x
  end.

(** No dictionary value and no list element, at any depth, is [None],
    [""], [{}] or [[]]. *)
Fixpoint clean (j : json) : bool :=
  match j with
  | JObj kv => forallb (fun '(_, v) => negb (is_empty_value v) && clean v) kv
  | JArr l => forallb (fun v => negb (is_empty_value v) && clean v) l
  | _ => true
  end.

(** The scalar values of a JSON document other than [None] and [""], in
    document order, each with its chain of dictionary keys ([None] for a
    step into a list). *)
Fixpoint leaves (j : json) : list (list (option string) * json) :=
  match j with
  | JNull => []
  | JStr s => if String.eqb s "" then [] else [([], j)]
  | JArr l => concat (map (fun v => map (fun px => (None :: fst px, snd px)) (leaves v)) l)
  | JObj kv =>
      concat (map (fun kv => map (fun px => (Some (fst kv) :: fst px, snd px)) (leaves (snd kv))) kv)
  | _ => [([], j)]
  end.

(** Python truthiness of a JSON value. *)
Definition truthy (j : json) : bool :=
  match j with
  | JNull => false
  | JBool b => b
  | JInt z => negb (z =? 0)%Z
  | JFloat (S754_zero _) => false
  | JFloat _ => true
  | JStr s => negb (String.eqb s "")
  | JArr l => negb (List.length l =? 0)%nat
  | JObj kv => negb (List.length kv =? 0)%nat
  end.

(* ================================================================== *)
(** ** Exceptions and results *)

(** The Wix endpoints the script calls; the f-string URLs are kept with
    the interpolated value. *)
Inductive endpoint : Type :=
  | EP_products_query                    (* /stores/v1/products/query *)
  | EP_products                          (* /stores/v1/products *)
  | EP_product_media (pid : json)        (* /stores/v1/products/{pid}/media *)
  | EP_collections_query                 (* /stores/v1/collections/query *)
  | EP_categories_query                  (* /stores/v1/categories/query *)
  | EP_collection_productIds (cid : json). (* /stores/v1/collections/{cid}/productIds *)

Inductive py_exc : Type :=
  | ValueError
  | TypeError
  | AttributeError
  | AssertionError
  | RequestException                     (* raised by [requests]: timeout, connection *)
  | RuntimeError (method : string) (ep : endpoint) (status : Z) (text : string)
  | SystemExit (code : Z).

Inductive result (A : Type) : Type :=
  | Ok (a : A)
  | Raise (e : py_exc).
Arguments Ok {A} a.
Arguments Raise {A} e.

(** [except Exception]: every exception but [SystemExit]. *)
Definition is_Exception (e : py_exc) : bool :=
  match e with SystemExit _ => false | _ => true end.

(* ================================================================== *)
(** ** Python [float(s)] *)
Module PyParse.
Import PyStr.

Fixpoint take_digits (l : list ascii) : list ascii * list ascii :=
  match l with
  | c :: t => if is_digit c then let '(ds, r) := take_digits t in (c :: ds, r) else ([], l)
  | [] => ([], [])
  end.

Definition digits_value (ds : list ascii) : Z :=
  fold_left (fun acc c => acc * 10 + digit_val c)%Z ds 0%Z.

(** Underscores are accepted only between two digits; they are dropped. *)
Fixpoint drop_underscores (prev_digit : bool) (l : list ascii) : option (list ascii) :=
  match l with
  | [] => Some []
  | c :: t =>
      if Ascii.eqb c "_"%char then
        match t with
        | d :: _ => if prev_digit && is_digit d then drop_underscores false t else None
        | [] => None
        end
      else option_map (cons c) (drop_underscores (is_digit c) t)
  end.

(** [digits] ["." digits] [exponent], at least one digit in the first two
    parts; returns the decimal mantissa and the power of ten. *)
Definition parse_decimal (l : list ascii) : option (Z * Z) :=
  let '(ip, r1) := take_digits l in
  let '(fp, r2) := match r1 with
                   | c :: r => if Ascii.eqb c "."%char then take_digits r else ([], r1)
                   | [] => ([], [])
                   end in
  match ip, fp with
  | [], [] => None
  | _, _ =>
      let m := digits_value (ip ++ fp) in
      let e := match r2 with
               | [] => Some 0%Z
               | c :: r =>
                   if Ascii.eqb (lower_char c) "e"%char then
                     let '(neg, r') := match r with
                                       | s :: r'' => if Ascii.eqb s "-"%char then (true, r'')
                                                     else if Ascii.eqb s "+"%char then (false, r'')
                                                     else (false, r)
                                       | [] => (false, r)
                                       end in
                     match take_digits r' with
                     | ((_ :: _) as ds, []) => Some (if neg then - digits_value ds else digits_value ds)%Z
                     | _ => None
                     end
                   else None
               end in
      option_map (fun e => (m, e - Z.of_nat (List.length fp))%Z) e
  end.

Definition decimal_to_float (m e : Z) : float :=
  if (0 <=? e)%Z then nearest_ratio (m * 10 ^ e) 1
  else nearest_ratio m (Z.to_pos (10 ^ (- e))).

(** [float(s)]: [None] stands for the [ValueError] it raises. *)
Definition py_float (s : string) : option float :=
  match drop_underscores false (list_ascii_of_string (strip s)) with
  | None => None
  | Some l =>
      let '(neg, body) := match l with
                          | c :: r => if Ascii.eqb c "-"%char then (true, r)
                                      else if Ascii.eqb c "+"%char then (false, r)
                                      else (false, l)
                          | [] => (false, l)
                          end in
      let word := lower (string_of_list_ascii body) in
      if String.eqb word "inf" || String.eqb word "infinity" then Some (S754_infinity neg)
      else if String.eqb word "nan" then Some S754_nan
      else match parse_decimal body with
           | Some (m, e) =>
               let v := decimal_to_float m e in
               Some (if neg then SFopp v else v)
           | None => None
           end
  end.

End PyParse.
Import PyParse.

(** [s.replace(",", ".")] *)
Definition replace_comma (s : string) : string :=
  PyStr.map_str (fun c => if Ascii.eqb c ","%char then "."%char else c) s.

(* ================================================================== *)
(** ** [to_float_kg] *)
Module Weight.
Import PyStr.

(** The maximal run of [[\d\.]] at the head of the text. *)
Fixpoint run_num (l : list ascii) : list ascii * list ascii :=
  match l with
  | c :: t =>
      if is_digit c || Ascii.eqb c "."%char then let '(n, r) := run_num t in (c :: n, r)
      else ([], l)
  | [] => ([], [])
  end.

Fixpoint skip_spaces (l : list ascii) : list ascii :=
  match l with
  | c :: t => if is_space c then skip_spaces t else l
  | [] => []
  end.

(** [\b] right after a word character. *)
Definition boundary_after (l : list ascii) : bool :=
  match l with
  | c :: _ => negb (is_word c)
  | [] => true
  end.

(** [\s*(kg|g)\b] with [re.I]; returns [m.group(2)]. *)
Definition unit_after (l : list ascii) : option (list ascii) :=
  match skip_spaces l with
  | k :: g :: r =>
      if Ascii.eqb (lower_char k) "k"%char && Ascii.eqb (lower_char g) "g"%char
         && boundary_after r
      then Some [k; g]
      else if Ascii.eqb (lower_char k) "g"%char && boundary_after (g :: r)
      then Some [k] else None
  | [k] => if Ascii.eqb (lower_char k) "g"%char then Some [k] else None
  | [] => None
  end.

(** [re.search(r"([\d\.]+)\s*(kg|g)\b", s, re.I)]: the leftmost start
    position at which the pattern matches.  At a given start only the
    maximal run of [[\d\.]] can be followed by [\s*(kg|g)], so no other
    backtracking is needed. *)
Fixpoint search_kg (l : list ascii) : option (list ascii * list ascii) :=
  match l with
  | [] => None
  | _ :: t =>
      match run_num l with
      | ([], _) => search_kg t
      | (num, rest) =>
          match unit_after rest with
          | Some u => Some (num, u)
          | None => search_kg t
          end
      end
  end.

End Weight.

(** [def to_float_kg(s)]; the [float] call of the fallback branch is not
    guarded by the [try]. *)
Definition to_float_kg (s : option string) : result (option float) :=
  match s with
  | None => Ok None
  | Some s0 =>
      let s1 := PyStr.strip s0 in
      if String.eqb s1 "" then Ok None
      else match py_float (replace_comma s1) with
           | Some v => Ok (Some v)
           | None =>
               match Weight.search_kg (list_ascii_of_string s1) with
               | Some (g1, g2) =>
                   match py_float (replace_comma (string_of_list_ascii g1)) with
                   | Some v =>
                       if String.eqb (PyStr.lower (string_of_list_ascii g2)) "g"
                       then Ok (Some (fdiv v lit_1000)) else Ok (Some v)
                   | None => Raise ValueError
                   end
               | None => Ok None
               end
           end
  end.

(* ================================================================== *)
(** ** Wix requests, rows and the main loop *)

(** What [fetch_from_page] returns (the keys that [main] reads). *)
Record scraped : Type := {
  sc_images : list string;
  sc_sku : option string;
  sc_weight_kg : option float;
  sc_description : option string;
  sc_eta : option string;
  sc_deadline : option string }.

(** One call of [requests.request]: the JSON body is [prune(payload)]. *)
Record http_request : Type := {
  rq_method : string;
  rq_endpoint : endpoint;
  rq_api_key : string;
  rq_site_id : string;
  rq_body : option json }.

(** What the transport returns: an exception of [requests], or a status,
    the response text and the value of [r.json()] ([None] when the text
    is not JSON). *)
Inductive http_response : Type :=
  | TransportFailure
  | Response (status : Z) (text : string) (parsed : option json).

(** A CSV row after the normalisation of [read_rows]. *)
Definition row : Type := list (string * string).

(** A row as [csv.DictReader] yields it: keys are [None] for extra fields. *)
Definition raw_row : Type := list (option string * option string).

(** The per-row messages of [main]. *)
Inductive row_outcome : Type :=
  | RowInvalidUrl                 (* "url_produttore non valido" *)
  | RowInvalidPrice               (* "prezzo non valido" *)
  | RowDryRun                     (* "[DRY-RUN] ... nessuna creazione" *)
  | RowNoId                       (* "risposta senza product.id" *)
  | RowCreateError (e : py_exc)   (* the create request raised *)
  | RowCreated (pid : json).      (* "[OK] ... creato prodotto id=..." *)

(** An entry of the [created] list. *)
Record created_entry : Type := {
  ce_row : Z;
  ce_id : json;
  ce_name : option string;
  ce_slug : string }.

Definition OPTION_NAME : string := "PREORDER PAYMENTS OPTIONS*".
Definition CHOICE_DEPOSIT : string := "ANTICIPO/SALDO".
Definition CHOICE_FULLPAY : string := "PAGAMENTO ANTICIPATO".

Definition CATEGORY_ALIASES : list (string * string) :=
  [("statue", "Statue da collezione");
   ("statua", "Statue da collezione");
   ("statue da collezione", "Statue da collezione");
   ("action figures", "Action Figures da Collezione");
   ("repliche", "Repliche Cinematografiche")].

Fixpoint assoc {V : Type} (k : string) (l : list (string * V)) : option V :=
  match l with
  | [] => None
  | (k', v) :: t => if String.eqb k k' then Some v else assoc k t
  end.

(** [CATEGORY_ALIASES.get(k, default)] *)
Definition alias_get (k default : string) : string :=
  match assoc k CATEGORY_ALIASES with Some v => v | None => default end.

(** [d.get(k)] on a JSON value: [None] is [JNull]; not a dict raises. *)
Definition dict_get (d : json) (k : string) : result json :=
  match d with
  | JObj kv => Ok (match assoc k kv with Some v => v | None => JNull end)
  | _ => Raise AttributeError
  end.

(** [d.get(k, default)] *)
Definition dict_get_default (d : json) (k : string) (dflt : json) : result json :=
  match d with
  | JObj kv => Ok (match assoc k kv with Some v => v | None => dflt end)
  | _ => Raise AttributeError
  end.

(** [a or b] on JSON values. *)
Definition json_or (a b : json) : json := if truthy a then a else b.

(** [len(x)] *)
Definition py_len (j : json) : result nat :=
  match j with
  | JStr s => Ok (String.length s)
  | JArr l => Ok (List.length l)
  | JObj kv => Ok (List.length kv)
  | _ => Raise TypeError
  end.

(** [a + b] on the two (truthy or empty-list) query results, as a list to
    iterate over: two lists concatenate; two non-empty strings concatenate
    and the first character's [.get] raises; anything else is a
    [TypeError]. *)
Definition py_list_add (a b : json) : result (list json) :=
  match a, b with
  | JArr x, JArr y => Ok (x ++ y)%list
  | JStr _, JStr _ => Raise AttributeError
  | _, _ => Raise TypeError
  end.

(** [a or b] on strings, [None] for a missing value. *)
Definition str_or (a b : option string) : option string :=
  match a with
  | Some s => if String.eqb s "" then b else a
  | None => b
  end.

Definition opt_str_truthy (a : option string) : bool :=
  match a with Some s => negb (String.eqb s "") | None => false end.

(** [str(x)] / an f-string hole on a value that is a [str] or [None]. *)
Definition py_str_opt (a : option string) : string :=
  match a with Some s => s | None => "None" end.

(** [def normalize_name(s)] *)
Definition normalize_name (s : string) : string :=
  if String.eqb s "" then ""
  else PyStr.lower (PyStr.strip (PyStr.collapse_spaces s)).

(** [def slugify(s)] *)
Definition slugify (s : string) : string :=
  let t := PyStr.take 80 (PyStr.lower (PyStr.strip_char "-" (PyStr.dash_runs s))) in
  if String.eqb t "" then "articolo" else t.

(** [def parse_image_list_field(s)] *)
Definition parse_image_list_field (s : option string) : list string :=
  match s with
  | None => []
  | Some s =>
      if String.eqb s "" then []
      else filter (fun p => PyStr.startswith p "http")
                  (map PyStr.strip (PyStr.split_char "|" s))
  end.

(** [re.match(r"^https?://", u)] *)
Definition is_http_url (u : string) : bool :=
  PyStr.startswith u "http://" || PyStr.startswith u "https://".

(** The words that [prefer_english] looks for. *)
Definition ENGLISH_WORDS : list string :=
  ["the"; "and"; "with"; "figure"; "statue"; "scale"; "includes"; "features"; "inch";
   "cm"; "preorder"].

(** [sub in s] on strings. *)
Fixpoint contains (sub s : string) : bool :=
  String.prefix sub s || match s with EmptyString => false | String _ t => contains sub t end.

(** [score(t)] inside [prefer_english]. *)
Definition english_score (t : string) : nat :=
  let t0 := PyStr.lower t in
  (List.length (filter (fun w => contains w t0) ENGLISH_WORDS) * 50 + String.length t)%nat.

(** [l.sort(key=key, reverse=True)]: by decreasing key, and stable, so
    elements with equal keys keep their order. *)
Fixpoint insert_desc {A : Type} (key : A -> nat) (x : A) (l : list A) : list A :=
  match l with
  | [] => [x]
  | y :: t => if (key y <? key x)%nat then x :: l else y :: insert_desc key x t
  end.
Definition sort_desc {A : Type} (key : A -> nat) (l : list A) : list A :=
  fold_left (fun acc x => insert_desc key x acc) l [].

(** The filter of [prefer_english]: [t and len(t.strip()) > 60]. *)
Definition long_text (t : string) : bool :=
  negb (String.eqb t "") && (60 <? String.length (PyStr.strip t))%nat.

(** [def prefer_english(texts)] *)
Definition prefer_english (texts : list string) : option string :=
  let texts := filter long_text texts in
  match texts with
  | [] => None
  | _ => hd_error (sort_desc english_score texts)
  end.

(** One pass over the remote items: [c.get("name") or ""], [.strip()],
    then the test; returns [c.get("id")] of the first item that passes. *)
Fixpoint first_match (p : string -> bool) (items : list json) : result (option json) :=
  match items with
  | [] => Ok None
  | c :: t =>
      match dict_get c "name" with
      | Raise e => Raise e
      | Ok nmv =>
          match json_or nmv (JStr "") with
          | JStr s =>
              if p (PyStr.strip s) then
                match dict_get c "id" with Ok i => Ok (Some i) | Raise e => Raise e end
              else first_match p t
          | _ => Raise AttributeError
          end
      end
  end.

(** The [name] that the loop of [first_match] reads from an item
    ([c.get("name") or ""]), its [id], and the items on which that read
    succeeds: dicts whose name is a string, missing or [None]. *)
Definition name_field (c : json) : json :=
  match dict_get c "name" with Ok v => json_or v (JStr "") | Raise _ => JNull end.
Definition well_named (c : json) : bool :=
  match c, name_field c with JObj _, JStr _ => true | _, _ => false end.
Definition item_name (c : json) : string :=
  match name_field c with JStr s => s | _ => "" end.
Definition item_id (c : json) : json :=
  match dict_get c "id" with Ok v => v | Raise _ => JNull end.

(** A newline. *)
Definition NL : string := String "010" "".

(** The description header of [main] (lines 383-390): [descr] is the body
    after its fallbacks, a [str] or [None]. *)
Definition compose_description (eta preorder_deadline : string) (descr : option string)
  : option string :=
  let header_lines :=
    app (if String.eqb eta "" then [] else ["Uscita prevista: " ++ eta])
        (if String.eqb preorder_deadline "" then []
         else ["Chiusura preordine : " ++ preorder_deadline ++ " Salvo esaurimento"]) in
  match header_lines with
  | [] => descr
  | _ => Some (String.concat (String "010" "") header_lines
               ++ String "010" (String "010" "") ++ py_str_opt descr)
  end.

(** The body of the description (lines 362 and 375). *)
Definition description_body (csv_descr : string) (sc : scraped) (name : option string)
  : option string :=
  if String.eqb csv_descr "" then str_or (sc_description sc) name else Some csv_descr.

(** One element of [product["variants"]]. *)
Definition variant_json (choice : string) (price : float) (sku : option string)
    (suffix : string) (peso : option float) : json :=
  JObj (app [("choices", JObj [(OPTION_NAME, JStr choice)]);
              ("priceData", JObj [("price", JFloat price)])]
         (app (if opt_str_truthy sku then [("sku", JStr (py_str_opt sku ++ suffix))] else [])
              (match peso with Some w => [("weight", JFloat w)] | None => [] end))).

(** The [product] dict of [main] (lines 394-425). *)
Definition build_product (name : option string) (slug : string) (visible : bool)
    (descr : option string) (price : float) (brand : string) (images : list string)
    (is_preorder : bool) (sku : option string) (peso : option float) : json :=
  let media := map (fun u => JObj [("src", JStr u)])
                   (filter (fun u => PyStr.startswith u "http") (firstn 10 images)) in
  let base :=
    [("name", match name with Some n => JStr n | None => JNull end);
     ("slug", JStr slug);
     ("visible", JBool visible);
     ("productType", JStr "physical");
     ("description", match descr with Some d => JStr d | None => JNull end);
     ("priceData", JObj [("price", JFloat price)]);
     ("brand", if String.eqb brand "" then JNull else JStr brand);
     ("mediaItems", match media with [] => JNull | _ => JArr media end);
     ("ribbon", if is_preorder then JStr "PREORDINE" else JNull);
     ("manageVariants", JBool is_preorder)] in
  if is_preorder then
    let '(deposito, anticipato) := compute_prices price in
    JObj (app base
      [("productOptions",
        JArr [JObj [("name", JStr OPTION_NAME);
                    ("choices", JArr [JObj [("value", JStr CHOICE_DEPOSIT);
                                            ("description", JStr CHOICE_DEPOSIT)];
                                      JObj [("value", JStr CHOICE_FULLPAY);
                                            ("description", JStr CHOICE_FULLPAY)]])]]);
       ("variants",
        JArr [variant_json CHOICE_DEPOSIT deposito sku "-DEP" peso;
              variant_json CHOICE_FULLPAY anticipato sku "-FULL" peso])])
  else JObj base.

(** A state and exception monad over a world type [W]. *)
Definition St (W A : Type) : Type := W -> W * result A.

Definition ret {W A : Type} (a : A) : St W A := fun w => (w, Ok a).
Definition throw {W A : Type} (e : py_exc) : St W A := fun w => (w, Raise e).
Definition lift {W A : Type} (r : result A) : St W A := fun w => (w, r).
Definition bind {W A B : Type} (c : St W A) (k : A -> St W B) : St W B :=
  fun w => let '(w', r) := c w in
           match r with Ok a => k a w' | Raise e => (w', Raise e) end.

Notation "x <- c ;; k" := (bind c (fun x => k))
  (at level 61, c at next level, right associativity).

(** [try: c except Exception as e: h(e)] *)
Definition try_except {W A : Type} (c : St W A) (h : py_exc -> St W A) : St W A :=
  fun w => let '(w', r) := c w in
           match r with
           | Ok a => (w', Ok a)
           | Raise e => if is_Exception e then h e w' else (w', Raise e)
           end.

Section Program.

(** The remote Wix API: a state and its answer to each request. *)
Variable RS : Type.
Variable remote : RS -> http_request -> RS * http_response.
(** [fetch_from_page(url)], which never raises. *)
Variable fetch_from_page : string -> scraped.

Record world : Type := { w_remote : RS; w_sent : list http_request }.

Definition M (A : Type) : Type := St world A.

(** [def wix_request(method, url, api_key, site_id, payload=None)] *)
Definition wix_request (method : string) (ep : endpoint) (api_key site_id : string)
    (payload : option json) : M json :=
  fun w =>
    let req := {| rq_method := method; rq_endpoint := ep; rq_api_key := api_key;
                  rq_site_id := site_id; rq_body := option_map prune payload |} in
    let '(rs', resp) := remote (w_remote w) req in
    ({| w_remote := rs'; w_sent := w_sent w ++ [req] |},
     match resp with
     | TransportFailure => Raise RequestException
     | Response status text parsed =>
         if (300 <=? status)%Z then Raise (RuntimeError method ep status (PyStr.take 1200 text))
         else if negb (String.eqb (PyStr.strip text) "") then
           match parsed with Some j => Ok j | None => Ok (JObj []) end
         else Ok (JObj [])
     end).

(** [def precheck(api_key, site_id)] *)
Definition precheck (api_key site_id : string) : M bool :=
  try_except
    (res <- wix_request "POST" EP_products_query api_key site_id
                        (Some (JObj [("query", JObj [])])) ;;
     p <- lift (dict_get res "products") ;;
     items <- (if truthy p then ret p
               else i <- lift (dict_get res "items") ;; ret (json_or i (JArr []))) ;;
     _ <- lift (py_len items) ;;
     ret true)
    (fun _ => ret false).

(** [def create_product_v1(api_key, site_id, product)] *)
Definition create_product_v1 (api_key site_id : string) (product : json) : M json :=
  wix_request "POST" EP_products api_key site_id (Some (JObj [("product", product)])).

(** [def add_media_v1(api_key, site_id, product_id, urls)] *)
Definition add_media_v1 (api_key site_id : string) (product_id : json) (urls : list string)
  : M unit :=
  let urls := filter (fun u => PyStr.startswith u "http") urls in
  match urls with
  | [] => ret tt
  | _ =>
      let items := map (fun u => JObj [("src", JStr u)]) (firstn 20 urls) in
      try_except
        (_ <- wix_request "POST" (EP_product_media product_id) api_key site_id
                          (Some (JObj [("mediaItems", JArr items)])) ;; ret tt)
        (fun _ => ret tt)
  end.

Definition paging_query : json :=
  JObj [("query", JObj [("paging", JObj [("limit", JInt 500)])])].

(** [def list_collections(api_key, site_id)] *)
Definition list_collections (api_key site_id : string) : M json :=
  try_except
    (res <- wix_request "POST" EP_collections_query api_key site_id (Some paging_query) ;;
     c <- lift (dict_get res "collections") ;;
     if truthy c then ret c
     else i <- lift (dict_get res "items") ;; ret (json_or i (JArr [])))
    (fun _ => ret (JArr [])).

(** [def list_categories(api_key, site_id)] *)
Definition list_categories (api_key site_id : string) : M json :=
  try_except
    (res <- wix_request "POST" EP_categories_query api_key site_id (Some paging_query) ;;
     c <- lift (dict_get res "categories") ;;
     if truthy c then ret c
     else i <- lift (dict_get res "items") ;; ret (json_or i (JArr [])))
    (fun _ => ret (JArr [])).

(** [def find_category_or_collection_id(api_key, site_id, name)] *)
Definition find_category_or_collection_id (api_key site_id name : string) : M json :=
  if String.eqb name "" then ret JNull
  else
    let target := PyStr.strip (alias_get (PyStr.lower (PyStr.strip name)) name) in
    let norm_target := normalize_name target in
    cols <- list_collections api_key site_id ;;
    cats <- list_categories api_key site_id ;;
    items <- lift (py_list_add cols cats) ;;
    r1 <- lift (first_match (fun nm => String.eqb (normalize_name nm) norm_target) items) ;;
    match r1 with
    | Some i => ret i
    | None =>
        r2 <- lift (first_match (fun nm => PyStr.startswith (normalize_name nm) norm_target)
                                items) ;;
        match r2 with Some i => ret i | None => ret JNull end
    end.

(** [def add_product_to_collection(api_key, site_id, col_id, product_id)] *)
Definition add_product_to_collection (api_key site_id : string) (col_id product_id : json)
  : M unit :=
  if negb (truthy col_id) || negb (truthy product_id) then ret tt
  else try_except
         (_ <- wix_request "POST" (EP_collection_productIds col_id) api_key site_id
                           (Some (JObj [("productIds", JArr [product_id])])) ;; ret tt)
         (fun _ => ret tt).

(** [r.get(k)] on a normalised row. *)
Definition rget (r : row) (k : string) : option string := assoc k r.

Definition str_default (d : string) (a : option string) : string :=
  match str_or a None with Some s => s | None => d end.

(** The category after the alias table (line 365). *)
Definition alias_category (categoria : string) : string :=
  PyStr.strip (alias_get (PyStr.lower (PyStr.strip categoria)) categoria).

(** [name] and [urlp] of a row (lines 348-349). *)
Definition row_name (r : row) : option string :=
  str_or (rget r "nome_articolo") (rget r "name").
Definition row_url (r : row) : option string :=
  str_or (rget r "url_produttore") (rget r "link_al_sito_del_produttore").

(** The URL test of line 350. *)
Definition url_ok (r : row) : bool := is_http_url (py_str_opt (str_or (row_url r) (Some ""))).

(** Lines 353-358: [price] if [float(...)] succeeds and [price > 0]. *)
Definition row_price (r : row) : option float :=
  let price_s := str_default "0" (str_or (rget r "prezzo_eur") (rget r "prezzo")) in
  match py_float (replace_comma price_s) with
  | Some price => if fpos price then Some price else None
  | None => None
  end.

(** What lines 360-425 compute for a row that passed the two checks. *)
Record prepared : Type := {
  prep_name : option string;
  prep_slug : string;
  prep_images : list string;
  prep_categoria : string;
  prep_product : json }.

Definition prepare_row (r : row) (price : float) (peso0 : option float) (sc : scraped)
  : prepared :=
  let name := row_name r in
  let sku0 := str_or (rget r "sku") None in
  let descr0 := str_default "" (rget r "descrizione") in
  let brand := str_default "" (rget r "brand") in
  let categoria := alias_category (str_default "" (rget r "categoria")) in
  let deadline0 := str_default "" (rget r "preorder_scadenza") in
  let eta0 := str_default "" (rget r "eta") in
  let images_from_csv := parse_image_list_field (rget r "immagini_urls") in
  let visible := negb (String.eqb (PyStr.upper (PyStr.strip
                   (str_default "SI" (rget r "visibile_online")))) "NO") in
  let tipo := PyStr.upper (PyStr.strip (str_default "PREORDER" (rget r "tipo_articolo"))) in
  let is_preorder := String.eqb tipo "PREORDER" in
  let descr1 := description_body descr0 sc name in
  let eta := if String.eqb eta0 "" && opt_str_truthy (sc_eta sc)
             then py_str_opt (sc_eta sc) else eta0 in
  let deadline := if String.eqb deadline0 "" && opt_str_truthy (sc_deadline sc)
                  then py_str_opt (sc_deadline sc) else deadline0 in
  let peso := match peso0 with Some w => Some w | None => sc_weight_kg sc end in
  let sku := if opt_str_truthy sku0 then sku0 else sc_sku sc in
  let images := match images_from_csv with [] => sc_images sc | _ => images_from_csv end in
  let descr := compose_description eta deadline descr1 in
  let slug := if opt_str_truthy sku
              then slugify (py_str_opt name) ++ "-" ++ PyStr.lower (py_str_opt sku)
              else slugify (py_str_opt name) in
  {| prep_name := name; prep_slug := slug; prep_images := images;
     prep_categoria := categoria;
     prep_product := build_product name slug visible descr price brand images
                                   is_preorder sku peso |}.

(** Lines 436-449: the create request and [pid], or the exception. *)
Definition try_create (api_key site_id : string) (product : json) : M (json + py_exc) :=
  try_except
    (res <- create_product_v1 api_key site_id product ;;
     p <- lift (dict_get_default res "product" (JObj [])) ;;
     pid <- lift (dict_get p "id") ;;
     ret (inl pid))
    (fun e => ret (inr e)).

(** The request that [create_product_v1] passes to [requests.request]
    through [wix_request]. *)
Definition create_request (api_key site_id : string) (product : json) : http_request :=
  {| rq_method := "POST"; rq_endpoint := EP_products; rq_api_key := api_key;
     rq_site_id := site_id; rq_body := Some (prune (JObj [("product", product)])) |}.

(** Lines 452-456. *)
Definition attach_media (api_key site_id : string) (pid : json) (images : list string)
  : M unit :=
  try_except (match images with
              | [] => ret tt
              | _ => add_media_v1 api_key site_id pid images
              end) (fun _ => ret tt).

(** Lines 459-467. *)
Definition attach_category (api_key site_id : string) (pid : json) (categoria : string)
  : M unit :=
  try_except (if String.eqb categoria "" then ret tt
              else cid <- find_category_or_collection_id api_key site_id categoria ;;
                   if truthy cid then add_product_to_collection api_key site_id cid pid
                   else ret tt) (fun _ => ret tt).

(** The body of the [for] loop of [main] (lines 348-469) for row number
    [rownum]; the artifact files it writes are not modelled. *)
Definition process_row (api_key site_id : string) (dry : bool) (rownum : Z) (r : row)
  : M (row_outcome * option created_entry) :=
  if negb (url_ok r) then ret (RowInvalidUrl, None)
  else
  match row_price r with
  | None => ret (RowInvalidPrice, None)
  | Some price =>
      peso0 <- lift (to_float_kg (rget r "peso_kg")) ;;
      let sc := fetch_from_page (py_str_opt (row_url r)) in
      let pr := prepare_row r price peso0 sc in
      if dry then ret (RowDryRun, None)
      else
      created <- try_create api_key site_id (prep_product pr) ;;
      match created with
      | inr e => ret (RowCreateError e, None)
      | inl pid =>
          if negb (truthy pid) then ret (RowNoId, None)
          else
          _ <- attach_media api_key site_id pid (prep_images pr) ;;
          _ <- attach_category api_key site_id pid (prep_categoria pr) ;;
          ret (RowCreated pid, Some {| ce_row := rownum; ce_id := pid;
                                       ce_name := prep_name pr; ce_slug := prep_slug pr |})
      end
  end.

(** The [for] loop of [main]: the row outcomes and the [created] list. *)
Fixpoint run_rows (api_key site_id : string) (dry : bool) (rows : list (Z * row))
  : M (list row_outcome * list created_entry) :=
  match rows with
  | [] => ret ([], [])
  | (n, r) :: rest =>
      o <- process_row api_key site_id dry n r ;;
      res <- run_rows api_key site_id dry rest ;;
      ret (fst o :: fst res,
           match snd o with Some c => c :: snd res | None => snd res end)
  end.

(** [d[k] = v] on a dict: an existing key keeps its position. *)
Fixpoint dict_set (d : row) (k v : string) : row :=
  match d with
  | [] => [(k, v)]
  | (k', v') :: t => if String.eqb k k' then (k, v) :: t else (k', v') :: dict_set t k v
  end.

(** The normalisation of one row in [read_rows] (lines 81-82). *)
Definition norm_row (raw : raw_row) : row :=
  fold_left (fun d kv =>
               match kv with
               | (Some k, v) =>
                   if PyStr.startswith k "__" then d
                   else dict_set d (PyStr.lower (PyStr.strip k))
                                 (PyStr.strip (match v with Some s => s | None => "" end))
               | (None, _) => d
               end) raw [].

(** [def read_rows(csv_path)] after the CSV reader: numbered from 2, rows
    without name, price and URL dropped. *)
Fixpoint read_rows_from (i : Z) (raws : list raw_row) : list (Z * row) :=
  match raws with
  | [] => []
  | raw :: t =>
      let norm := norm_row raw in
      if opt_str_truthy (rget norm "nome_articolo") || opt_str_truthy (rget norm "prezzo_eur")
         || opt_str_truthy (rget norm "url_produttore")
      then (i, norm) :: read_rows_from (i + 1) t
      else read_rows_from (i + 1) t
  end.
Definition read_rows (raws : list raw_row) : list (Z * row) := read_rows_from 2 raws.

(** [os.getenv(k, default).strip()] *)
Definition getenv_strip (env : list (string * string)) (k default : string) : string :=
  PyStr.strip (match assoc k env with Some v => v | None => default end).

(** [def main()], after the arguments are parsed. *)
Definition main (env : list (string * string)) (raws : list raw_row) : M unit :=
  let api_key := getenv_strip env "WIX_API_KEY" "" in
  let site_id := getenv_strip env "WIX_SITE_ID" "" in
  let dry := String.eqb (getenv_strip env "DRY_RUN" "0") "1" in
  let skip_pre := String.eqb (getenv_strip env "SKIP_PRECHECK" "0") "1" in
  if String.eqb api_key "" || String.eqb site_id "" then throw (SystemExit 1)
  else
  ok <- (if skip_pre then ret true else precheck api_key site_id) ;;
  if negb ok then throw (SystemExit 3)
  else
  res <- run_rows api_key site_id dry (read_rows raws) ;;
  match snd res with
  | [] => if negb (String.eqb (getenv_strip env "DRY_RUN" "0") "1")
          then throw (SystemExit 2) else ret tt
  | _ => ret tt
  end.

End Program.

(** The process exit status: [sys.exit(c)] gives [c], an uncaught
    exception gives 1, a normal return gives 0. *)
Definition exit_status (r : result unit) : Z :=
  match r with
  | Ok _ => 0
  | Raise (SystemExit c) => c
  | Raise _ => 1
  end.

(* ================================================================== *)
(** ** A concrete remote store

    A store of products that answers the requests of the script: a
    product query lists the products, a create stores the product under a
    fresh id unless a stored product has the same slug (then it answers
    400 with a duplicate message), every other request succeeds with an
    empty object. *)
Module ToyRemote.

Definition store : Type := list (string * json).

Definition fresh_id (s : store) : string :=
  "prod-" ++ NilEmpty.string_of_uint (Nat.to_uint (S (List.length s))).

Definition slug_of (p : json) : json :=
  match dict_get p "slug" with Ok v => v | Raise _ => JNull end.

Definition json_str_eqb (a b : json) : bool :=
  match a, b with JStr x, JStr y => String.eqb x y | _, _ => false end.

Definition step (s : store) (rq : http_request) : store * http_response :=
  match rq_endpoint rq with
  | EP_products_query =>
      (s, Response 200 "{...}" (Some (JObj [("products", JArr (map snd s))])))
  | EP_products =>
      let p := match rq_body rq with
               | Some b => match dict_get b "product" with Ok v => v | Raise _ => JNull end
               | None => JNull
               end in
      if existsb (fun e => json_str_eqb (slug_of (snd e)) (slug_of p)) s
      then (s, Response 400 "duplicate: a product with this SKU already exists"
                        (Some (JObj [("message", JStr "duplicate: a product with this SKU already exists")])))
      else let i := fresh_id s in
           (app s [(i, p)], Response 200 "{...}" (Some (JObj [("product", JObj [("id", JStr i)])])))
  | _ => (s, Response 200 "{}" (Some (JObj [])))
  end.

(** A manufacturer page with nothing to scrape. *)
Definition no_page (_ : string) : scraped :=
  {| sc_images := []; sc_sku := None; sc_weight_kg := None; sc_description := None;
     sc_eta := None; sc_deadline := None |}.

Definition start : world store := {| w_remote := []; w_sent := [] |}.

Definition env_live : list (string * string) :=
  [("WIX_API_KEY", "key"); ("WIX_SITE_ID", "site")].
Definition env_dry : list (string * string) :=
  [("WIX_API_KEY", "key"); ("WIX_SITE_ID", "site"); ("DRY_RUN", "1")].

(** Scenario A of the description: a row with name, URL, price and SKU. *)
Definition row_A : raw_row :=
  [(Some "nome_articolo", Some "Statue X"); (Some "url_produttore", Some "https://maker.example/x");
   (Some "prezzo_eur", Some "100"); (Some "sku", Some "ABC-1")].

Definition run (env : list (string * string)) (raws : list raw_row) (w : world store)
  : world store * result unit :=
  main store step no_page env raws w.

(** A row with URL and price but neither name nor SKU. *)
Definition row_B : raw_row :=
  [(Some "url_produttore", Some "https://maker.example/y"); (Some "prezzo_eur", Some "50")].

(** A row whose URL is not http(s), and one whose price does not parse. *)
Definition row_C : raw_row :=
  [(Some "nome_articolo", Some "Bust"); (Some "url_produttore", Some "ftp://maker.example/c");
   (Some "prezzo_eur", Some "10")].
Definition row_D : raw_row :=
  [(Some "nome_articolo", Some "Diorama"); (Some "url_produttore", Some "https://maker.example/d");
   (Some "prezzo_eur", Some "n/a")].

(** A valid row whose weight column holds ["1.2.3 kg"]. *)
Definition row_E : raw_row :=
  [(Some "nome_articolo", Some "Kit"); (Some "url_produttore", Some "https://maker.example/e");
   (Some "prezzo_eur", Some "20"); (Some "peso_kg", Some "1.2.3 kg")].

(** The entry scenario A adds to [created], and the store's answer to a
    second create of it. *)
Definition entry_A : created_entry :=
  {| ce_row := 2; ce_id := JStr "prod-1"; ce_name := Some "Statue X";
     ce_slug := "statue-x-abc-1" |}.

Definition dup_error : py_exc :=
  RuntimeError "POST" EP_products 400 "duplicate: a product with this SKU already exists".

Definition env_dry_nokey : list (string * string) := [("DRY_RUN", "1")].

(** A normalised row with an image and a category. *)
Definition row_F : row :=
  [("nome_articolo", "Statue F"); ("url_produttore", "https://maker.example/f");
   ("prezzo_eur", "80"); ("immagini_urls", "https://img.example/f1.jpg");
   ("categoria", "statue")].

Definition entry_F : created_entry :=
  {| ce_row := 5; ce_id := JStr "prod-1"; ce_name := Some "Statue F";
     ce_slug := "statue-f" |}.

End ToyRemote.

(** A store whose catalogue holds two collections and one category; it
    answers every other request with an empty object. *)
Module Catalog.

Definition entry (id name : string) : json := JObj [("id", JStr id); ("name", JStr name)].

Definition collections : list json :=
  [entry "col-1" "Statue da Collezione"; entry "col-2" "Action Figure"].
Definition categories : list json := [entry "cat-1" "Busti"].

Definition step (u : unit) (rq : http_request) : unit * http_response :=
  match rq_endpoint rq with
  | EP_collections_query =>
      (u, Response 200 "{...}" (Some (JObj [("collections", JArr collections)])))
  | EP_categories_query =>
      (u, Response 200 "{...}" (Some (JObj [("categories", JArr categories)])))
  | _ => (u, Response 200 "{}" (Some (JObj [])))
  end.

Definition start : world unit := {| w_remote := tt; w_sent := [] |}.

Definition resolve (name : string) : world unit * result json :=
  find_category_or_collection_id unit step "key" "site" name start.

End Catalog.


(* ================================================================== *)
(** ** Observations of a run *)

(** Every request that [c] sends satisfies [P]. *)
Definition appends_only {RS A : Type} (P : http_request -> Prop) (c : M RS A) : Prop :=
  forall w, exists l, w_sent RS (fst (c w)) = (w_sent RS w ++ l)%list /\ Forall P l.

(** [c] never raises [SystemExit]. *)
Definition never_exits {RS A : Type} (c : M RS A) : Prop :=
  forall w z, snd (c w) <> Raise (SystemExit z).

(** A request that neither queries nor creates products. *)
Definition product_untouched (q : http_request) : Prop :=
  match rq_endpoint q with EP_products_query | EP_products => False | _ => True end.

(** A request that changes the remote store. *)
Definition mutating (q : http_request) : Prop :=
  match rq_endpoint q with
  | EP_products | EP_product_media _ | EP_collection_productIds _ => True
  | _ => False
  end.

(** A product query, the read-only request of the precheck. *)
Definition is_query (q : http_request) : Prop := rq_endpoint q = EP_products_query.

(** A request that [attach_media] or [attach_category] may send for the
    product [pid]: media for [pid], a catalogue query, or adding [pid] to
    a collection. *)
Definition attach_request (pid : json) (q : http_request) : Prop :=
  rq_endpoint q = EP_product_media pid
  \/ rq_endpoint q = EP_collections_query \/ rq_endpoint q = EP_categories_query
  \/ exists cid, rq_endpoint q = EP_collection_productIds cid
                /\ rq_body q = Some (prune (JObj [("productIds"%string, JArr [pid])])).

(** The requests of one live row whose weight parses: the create
    request first and no other product request when its URL and price
    pass, nothing otherwise. *)
Definition row_requests_ok (r : row) (l : list http_request) : Prop :=
  if url_ok r && match row_price r with Some _ => true | None => false end
  then exists q rest, l = q :: rest /\ rq_endpoint q = EP_products /\ rq_method q = "POST"%string
                      /\ Forall product_untouched rest
  else l = [].

(** Every character of [s] satisfies [p]. *)
Fixpoint str_all (p : ascii -> bool) (s : string) : bool :=
  match s with EmptyString => true | String c t => p c && str_all p t end.

(** The characters of a slug: [a-z], [0-9] and [-]. *)
Definition slug_char (c : ascii) : bool :=
  let n := nat_of_ascii c in
  ((48 <=? n) && (n <=? 57))%nat || ((97 <=? n) && (n <=? 122))%nat || Ascii.eqb c "-"%char.

(* ================================================================== *)
(** * Proofs *)

Open Scope list_scope.

(** Induction on [json] with hypotheses for the nested lists. *)
Definition json_ind_nested (P : json -> Prop)
  (Hnull : P JNull) (Hbool : forall b, P (JBool b)) (Hint : forall z, P (JInt z))
  (Hfloat : forall f, P (JFloat f)) (Hstr : forall s, P (JStr s))
  (Harr : forall l, Forall P l -> P (JArr l))
  (Hobj : forall kv, Forall (fun kv => P (snd kv)) kv -> P (JObj kv)) : forall j, P j :=
  fix go (j : json) : P j :=
    match j with
    | JNull => Hnull
    | JBool b => Hbool b
    | JInt z => Hint z
    | JFloat f => Hfloat f
    | JStr s => Hstr s
    | JArr l =>
        Harr l ((fix go_l (l : list json) : Forall P l :=
                   match l with
                   | [] => Forall_nil _
                   | x :: t => Forall_cons _ (go x) (go_l t)
                   end) l)
    | JObj kv =>
        Hobj kv ((fix go_kv (kv : list (string * json))
                    : Forall (fun kv => P (snd kv)) kv :=
                    match kv with
                    | [] => Forall_nil _
                    | (k, v) :: t => @Forall_cons _ (fun kv => P (snd kv)) (k, v) t (go v) (go_kv t)
                    end) kv)
    end.

Lemma clean_prune : forall j, clean (prune j) = true.
Proof.
  induction j as [| | | | | l IH | kv IH] using json_ind_nested; try reflexivity.
  - simpl. apply forallb_forall. intros v Hv.
    apply filter_In in Hv as [Hv Hne]. apply in_map_iff in Hv as [x [<- Hx]].
    rewrite Hne. simpl. rewrite Forall_forall in IH. now apply IH.
  - simpl. apply forallb_forall. intros [k v] Hv.
    apply filter_In in Hv as [Hv Hne]. apply in_map_iff in Hv as [[k0 v0] [Heq Hx]].
    injection Heq as <- <-. simpl in Hne. rewrite Hne. simpl.
    rewrite Forall_forall in IH. exact (IH (k0, v0) Hx).
Qed.

Lemma prune_clean_id : forall j, clean j = true -> prune j = j.
Proof.
  induction j as [| | | | | l IH | kv IH] using json_ind_nested; try reflexivity.
  - simpl. intro H. f_equal.
    induction l as [| x t IHt]; [reflexivity |].
    simpl in H. apply andb_true_iff in H as [Hx Ht]. apply andb_true_iff in Hx as [Hne Hc].
    inversion IH as [| ? ? Px Pt]; subst.
    simpl. rewrite (Px Hc), Hne. simpl. f_equal. now apply IHt.
  - simpl. intro H. f_equal.
    induction kv as [| [k v] t IHt]; [reflexivity |].
    simpl in H. apply andb_true_iff in H as [Hx Ht]. apply andb_true_iff in Hx as [Hne Hc].
    inversion IH as [| ? ? Px Pt]; subst.
    simpl in Px. simpl. rewrite (Px Hc), Hne. simpl. f_equal. now apply IHt.
Qed.

Lemma prune_idempotent : forall j, prune (prune j) = prune j.
Proof. intro j. apply prune_clean_id, clean_prune. Qed.

Lemma empty_no_leaves j : is_empty_value j = true -> leaves j = [].
Proof.
  destruct j as [| | | | s | l | kv]; try discriminate; auto.
  - destruct s; [reflexivity | discriminate].
  - destruct l; [reflexivity | discriminate].
  - destruct kv; [reflexivity | discriminate].
Qed.

Lemma concat_map_filter_nonempty {A B} (f : A -> json) (g : A -> list B) (l : list A) :
  (forall a, is_empty_value (f a) = true -> g a = []) ->
  concat (map g (filter (fun a => negb (is_empty_value (f a))) l)) = concat (map g l).
Proof.
  intro Hg. induction l as [| a t IH]; [reflexivity |].
  simpl. destruct (is_empty_value (f a)) eqn:E; simpl; rewrite IH; [| reflexivity].
  now rewrite (Hg a E).
Qed.

Lemma leaves_prune : forall j, leaves (prune j) = leaves j.
Proof.
  induction j as [| | | | | l IH | kv IH] using json_ind_nested; try reflexivity.
  - simpl. rewrite (concat_map_filter_nonempty (fun v => v)).
    + rewrite map_map. f_equal. apply map_ext_in. intros v Hv.
      rewrite Forall_forall in IH. now rewrite (IH v Hv).
    + intros a Ha. now rewrite (empty_no_leaves a Ha).
  - simpl. rewrite (concat_map_filter_nonempty snd).
    + rewrite map_map. f_equal. apply map_ext_in. intros [k v] Hv. simpl.
      rewrite Forall_forall in IH. specialize (IH (k, v) Hv). simpl in IH.
      now rewrite IH.
    + intros a Ha. now rewrite (empty_no_leaves (snd a) Ha).
Qed.

Section RemoteProofs.
Variable RS : Type.
Variable remote : RS -> http_request -> RS * http_response.
Variable fetch_from_page : string -> scraped.

Lemma wix_request_sent (method : string) (ep : endpoint) (api_key site_id : string)
    (payload : option json) (w : world RS) :
  exists q, w_sent RS (fst (wix_request RS remote method ep api_key site_id payload w))
            = w_sent RS w ++ [q]
         /\ rq_endpoint q = ep /\ rq_method q = method
         /\ rq_body q = option_map prune payload.
Proof.
  unfold wix_request. destruct (remote (w_remote RS w) _) as [rs' resp]. simpl.
  eexists. split; [reflexivity | auto].
Qed.

(** C9: every payload [wix_request] sends is [prune(payload)]: at no depth
    is a dictionary value or a list element [None], [""], [{}] or [[]];
    every other scalar of the payload is kept, with its value, its chain
    of keys and its order; a payload that has no such empty value is sent
    unchanged, and pruning an already pruned payload changes nothing. *)
Theorem wix_request_payload_pruned (method : string) (ep : endpoint)
    (api_key site_id : string) (payload : json) (w : world RS) :
  exists q, w_sent RS (fst (wix_request RS remote method ep api_key site_id (Some payload) w))
            = w_sent RS w ++ [q]
         /\ rq_body q = Some (prune payload)
         /\ clean (prune payload) = true
         /\ leaves (prune payload) = leaves payload
         /\ prune (prune payload) = prune payload
         /\ (clean payload = true -> prune payload = payload).
Proof.
  destruct (wix_request_sent method ep api_key site_id (Some payload) w)
    as [q [Hs [_ [_ Hb]]]].
  exists q. repeat split; auto.
  - apply clean_prune.
  - apply leaves_prune.
  - apply prune_idempotent.
  - apply prune_clean_id.
Qed.

End RemoteProofs.

Section Effects.
Variable RS : Type.
Variable remote : RS -> http_request -> RS * http_response.
Variable fetch_from_page : string -> scraped.
Variable P : http_request -> Prop.

Lemma ao_ret {A} (a : A) : appends_only (RS:=RS) P (ret a).
Proof. intro w. exists []. simpl. rewrite app_nil_r. auto. Qed.

Lemma ao_lift {A} (r : result A) : appends_only (RS:=RS) P (lift r).
Proof. intro w. exists []. simpl. rewrite app_nil_r. auto. Qed.

Lemma ao_throw {A} (e : py_exc) : appends_only (RS:=RS) (A:=A) P (throw e).
Proof. intro w. exists []. simpl. rewrite app_nil_r. auto. Qed.

Lemma ao_bind {A B} (c : M RS A) (k : A -> M RS B) :
  appends_only P c -> (forall a, appends_only P (k a)) -> appends_only P (bind c k).
Proof.
  intros Hc Hk w. unfold bind. specialize (Hc w).
  destruct (c w) as [w1 r] eqn:E. destruct Hc as [l1 [H1 F1]]. simpl in H1.
  destruct r as [a | e].
  - destruct (Hk a w1) as [l2 [H2 F2]]. exists (l1 ++ l2).
    rewrite H2, H1, app_assoc. split; [reflexivity | now apply Forall_app].
  - exists l1. auto.
Qed.

Lemma ao_try {A} (c : M RS A) (h : py_exc -> M RS A) :
  appends_only P c -> (forall e, appends_only P (h e)) -> appends_only P (try_except c h).
Proof.
  intros Hc Hh w. unfold try_except. specialize (Hc w).
  destruct (c w) as [w1 r] eqn:E. destruct Hc as [l1 [H1 F1]]. simpl in H1.
  destruct r as [a | e]; [exists l1; auto |].
  destruct (is_Exception e); [| exists l1; auto].
  destruct (Hh e w1) as [l2 [H2 F2]]. exists (l1 ++ l2).
  rewrite H2, H1, app_assoc. split; [reflexivity | now apply Forall_app].
Qed.

Lemma ao_wix method ep api_key site_id payload :
  (forall q, rq_endpoint q = ep -> P q) ->
  appends_only P (wix_request RS remote method ep api_key site_id payload).
Proof.
  intros HP w. destruct (wix_request_sent RS remote method ep api_key site_id payload w)
    as [q [Hs [He _]]].
  exists [q]. split; [exact Hs | constructor; [now apply HP | constructor]].
Qed.

Lemma nx_ret {A} (a : A) : never_exits (RS:=RS) (ret a).
Proof. intros w z. discriminate. Qed.

Lemma nx_lift {A} (r : result A) :
  (forall z, r <> Raise (SystemExit z)) -> never_exits (RS:=RS) (lift r).
Proof. intros H w z. exact (H z). Qed.

Lemma nx_bind {A B} (c : M RS A) (k : A -> M RS B) :
  never_exits c -> (forall a, never_exits (k a)) -> never_exits (bind c k).
Proof.
  intros Hc Hk w z. unfold bind. specialize (Hc w z).
  destruct (c w) as [w1 [a | e]]; simpl in *.
  - apply Hk.
  - intro He. injection He as ->. now apply Hc.
Qed.

Lemma nx_try {A} (c : M RS A) (h : py_exc -> M RS A) :
  never_exits c -> (forall e, never_exits (h e)) -> never_exits (try_except c h).
Proof.
  intros Hc Hh w z. unfold try_except. specialize (Hc w z).
  destruct (c w) as [w1 [a | e]]; simpl in *; [discriminate |].
  destruct (is_Exception e); [apply Hh | exact Hc].
Qed.

Lemma nx_wix method ep api_key site_id payload :
  never_exits (wix_request RS remote method ep api_key site_id payload).
Proof.
  intros w z. unfold wix_request. destruct (remote (w_remote RS w) _) as [rs' resp].
  simpl. destruct resp as [| status text parsed]; [discriminate |].
  destruct (300 <=? status)%Z; [discriminate |].
  destruct (negb _); [destruct parsed |]; discriminate.
Qed.

(** [try: c except Exception: pass] on a computation that never exits. *)
Lemma try_pass_ok (c : M RS unit) (w : world RS) :
  never_exits c -> snd (try_except c (fun _ => ret tt) w) = Ok tt.
Proof.
  intro Hc. specialize (Hc w). unfold try_except.
  destruct (c w) as [w1 [[] | e]]; simpl in *; [reflexivity |].
  destruct e; simpl; try reflexivity. exfalso. now apply (Hc code).
Qed.

End Effects.

Create HintDb effects.
#[export] Hint Resolve ao_ret ao_lift ao_throw nx_ret nx_wix : effects.

Ltac effects_step :=
  match goal with
  | |- appends_only _ (bind _ _) => apply ao_bind; [| intro]
  | |- appends_only _ (try_except _ _) => apply ao_try; [| intro]
  | |- appends_only _ (wix_request _ _ _ _ _ _ _) =>
      apply ao_wix; intros ?q ?Hq; unfold product_untouched, mutating in *;
      rewrite ?Hq; simpl; auto
  | |- appends_only _ (if ?b then _ else _) => destruct b
  | |- appends_only _ (match ?x with _ => _ end) => destruct x
  | |- never_exits (bind _ _) => apply nx_bind; [| intro]
  | |- never_exits (try_except _ _) => apply nx_try; [| intro]
  | |- never_exits (lift _) => apply nx_lift; intros ?z
  | |- never_exits (if ?b then _ else _) => destruct b
  | |- never_exits (match ?x with _ => _ end) => destruct x
  | |- never_exits _ => solve [eauto with effects]
  | |- appends_only _ _ => solve [eauto with effects]
  | |- _ <> Raise (SystemExit _) => solve [eauto with effects | discriminate]
  end.
Ltac effects := cbv zeta; repeat (effects_step; cbv beta zeta).

Lemma dict_get_nx d k z : dict_get d k <> Raise (SystemExit z).
Proof. destruct d; discriminate. Qed.

Lemma dict_get_default_nx d k dflt z : dict_get_default d k dflt <> Raise (SystemExit z).
Proof. destruct d; discriminate. Qed.

Lemma py_len_nx j z : py_len j <> Raise (SystemExit z).
Proof. destruct j; discriminate. Qed.

Lemma py_list_add_nx a b z : py_list_add a b <> Raise (SystemExit z).
Proof. destruct a, b; discriminate. Qed.

Lemma first_match_nx p items z : first_match p items <> Raise (SystemExit z).
Proof.
  induction items as [| c t IH]; simpl; [discriminate |].
  destruct c; simpl; try discriminate.
  destruct (assoc "name" kv) as [v |]; simpl.
  - destruct (json_or v (JStr "")); try discriminate.
    destruct (p (PyStr.strip s)); [discriminate | exact IH].
  - destruct (p (PyStr.strip "")); [discriminate | exact IH].
Qed.

#[export] Hint Resolve dict_get_nx dict_get_default_nx py_len_nx py_list_add_nx
  first_match_nx : effects.

Section Components.
Variable RS : Type.
Variable remote : RS -> http_request -> RS * http_response.

Lemma add_media_untouched api_key site_id pid urls :
  appends_only product_untouched (add_media_v1 RS remote api_key site_id pid urls).
Proof. unfold add_media_v1. effects. Qed.

Lemma add_media_nx api_key site_id pid urls :
  never_exits (add_media_v1 RS remote api_key site_id pid urls).
Proof. unfold add_media_v1. effects. Qed.

Lemma find_category_untouched api_key site_id name :
  appends_only product_untouched
    (find_category_or_collection_id RS remote api_key site_id name).
Proof.
  unfold find_category_or_collection_id, list_collections, list_categories. effects.
Qed.

Lemma find_category_nx api_key site_id name :
  never_exits (find_category_or_collection_id RS remote api_key site_id name).
Proof.
  unfold find_category_or_collection_id, list_collections, list_categories. effects.
Qed.

Lemma add_to_collection_untouched api_key site_id cid pid :
  appends_only product_untouched (add_product_to_collection RS remote api_key site_id cid pid).
Proof. unfold add_product_to_collection. effects. Qed.

Lemma add_to_collection_nx api_key site_id cid pid :
  never_exits (add_product_to_collection RS remote api_key site_id cid pid).
Proof. unfold add_product_to_collection. effects. Qed.

#[local] Hint Resolve add_media_untouched add_media_nx find_category_untouched
  find_category_nx add_to_collection_untouched add_to_collection_nx : effects.

Lemma attach_media_untouched api_key site_id pid images :
  appends_only product_untouched (attach_media RS remote api_key site_id pid images).
Proof. unfold attach_media. effects. Qed.

Lemma attach_media_ok api_key site_id pid images w :
  snd (attach_media RS remote api_key site_id pid images w) = Ok tt.
Proof. unfold attach_media. apply try_pass_ok. effects. Qed.

Lemma attach_category_untouched api_key site_id pid categoria :
  appends_only product_untouched (attach_category RS remote api_key site_id pid categoria).
Proof. unfold attach_category. effects. Qed.

Lemma attach_category_ok api_key site_id pid categoria w :
  snd (attach_category RS remote api_key site_id pid categoria w) = Ok tt.
Proof. unfold attach_category. apply try_pass_ok. effects. Qed.

(** The create block sends exactly the create request and never raises. *)
Lemma try_create_spec api_key site_id product w :
  exists q v,
    w_sent RS (fst (try_create RS remote api_key site_id product w)) = w_sent RS w ++ [q]
    /\ rq_endpoint q = EP_products /\ rq_method q = "POST"%string
    /\ rq_body q = Some (prune (JObj [("product"%string, product)]))
    /\ snd (try_create RS remote api_key site_id product w) = Ok v.
Proof.
  unfold try_create, create_product_v1, try_except, bind.
  pose proof (nx_wix RS remote "POST" EP_products api_key site_id
                (Some (JObj [("product"%string, product)])) w) as Hn.
  destruct (wix_request_sent RS remote "POST" EP_products api_key site_id
              (Some (JObj [("product"%string, product)])) w) as [q [Hs [He [Hm Hb]]]].
  destruct (wix_request RS remote "POST" EP_products api_key site_id _ w) as [w1 r].
  simpl in Hs, Hn. exists q.
  destruct r as [res | e].
  - simpl. destruct (dict_get_default res "product" (JObj [])) as [p | e] eqn:Ep; simpl.
    + destruct (dict_get p "id") as [pid | e] eqn:Ei; simpl.
      * exists (inl pid). auto.
      * destruct (is_Exception e) eqn:Ee; simpl.
        -- exists (inr e). auto.
        -- destruct e; try discriminate Ee. exfalso. exact (dict_get_nx _ _ _ Ei).
    + destruct (is_Exception e) eqn:Ee; simpl.
      -- exists (inr e). auto.
      -- destruct e; try discriminate Ee. exfalso. exact (dict_get_default_nx _ _ _ _ Ep).
  - simpl. destruct (is_Exception e) eqn:Ee; simpl.
    + exists (inr e). auto.
    + exfalso. destruct e; try discriminate. exact (Hn code eq_refl).
Qed.

(** The one request of the create block is [create_request]. *)
Lemma try_create_sent api_key site_id product w :
  w_sent RS (fst (try_create RS remote api_key site_id product w))
  = w_sent RS w ++ [create_request api_key site_id product].
Proof.
  unfold try_create, try_except, bind, create_product_v1, wix_request, create_request.
  cbv zeta. destruct (remote _ _) as [rs' resp]. simpl.
  destruct resp as [| status text [j |]]; simpl; [reflexivity | |];
    destruct (300 <=? status)%Z; simpl; try reflexivity;
    destruct (negb _); simpl;
    repeat match goal with
           | |- context [dict_get_default ?a ?b ?c] => destruct (dict_get_default a b c); simpl
           | |- context [dict_get ?a ?b] => destruct (dict_get a b); simpl
           | |- context [is_Exception ?e] => destruct (is_Exception e); simpl
           end; reflexivity.
Qed.

(** A create answered with a status of 300 or more: the block catches the
    [RuntimeError] of [wix_request] and sends nothing else. *)
Lemma try_create_rejected api_key site_id product w rs' status text parsed :
  remote (w_remote RS w) (create_request api_key site_id product)
  = (rs', Response status text parsed) ->
  (300 <= status)%Z ->
  try_create RS remote api_key site_id product w
  = ({| w_remote := rs'; w_sent := w_sent RS w ++ [create_request api_key site_id product] |},
     Ok (inr (RuntimeError "POST" EP_products status (PyStr.take 1200 text)))).
Proof.
  intros Hq Hs. apply Z.leb_le in Hs.
  unfold try_create, try_except, bind, create_product_v1, wix_request.
  unfold create_request in Hq. cbv zeta. cbn [option_map]. rewrite Hq. simpl. rewrite Hs.
  reflexivity.
Qed.

End Components.

#[export] Hint Resolve add_media_untouched add_media_nx find_category_untouched
  find_category_nx add_to_collection_untouched add_to_collection_nx : effects.

Section Rows.
Variable RS : Type.
Variable remote : RS -> http_request -> RS * http_response.
Variable fetch_from_page : string -> scraped.
Variables (api_key site_id : string) (rownum : Z).

Local Abbreviation prow := (process_row RS remote fetch_from_page api_key site_id).

Lemma process_row_bad_url dry r w :
  url_ok r = false -> prow dry rownum r w = (w, Ok (RowInvalidUrl, None)).
Proof. intro H. unfold process_row. now rewrite H. Qed.

Lemma process_row_bad_price dry r w :
  url_ok r = true -> row_price r = None ->
  prow dry rownum r w = (w, Ok (RowInvalidPrice, None)).
Proof. intros H1 H2. unfold process_row. now rewrite H1, H2. Qed.

Lemma process_row_bad_weight dry r price w :
  url_ok r = true -> row_price r = Some price -> to_float_kg (rget r "peso_kg") = Raise ValueError ->
  prow dry rownum r w = (w, Raise ValueError).
Proof. intros H1 H2 H3. unfold process_row. rewrite H1, H2. simpl. now rewrite H3. Qed.

Lemma process_row_dry r price peso0 w :
  url_ok r = true -> row_price r = Some price -> to_float_kg (rget r "peso_kg") = Ok peso0 ->
  prow true rownum r w = (w, Ok (RowDryRun, None)).
Proof. intros H1 H2 H3. unfold process_row. rewrite H1, H2. simpl. now rewrite H3. Qed.

(** A row that passes the checks, in live mode: the create request comes
    first, then only media and collection requests; the outcome is a
    create error or a missing id (no further request), or a creation. *)
Lemma process_row_live r price peso0 w :
  url_ok r = true -> row_price r = Some price -> to_float_kg (rget r "peso_kg") = Ok peso0 ->
  let pr := prepare_row r price peso0 (fetch_from_page (py_str_opt (row_url r))) in
  exists q rest o c,
    w_sent RS (fst (prow false rownum r w)) = w_sent RS w ++ q :: rest
    /\ snd (prow false rownum r w) = Ok (o, c)
    /\ rq_endpoint q = EP_products /\ rq_method q = "POST"
    /\ rq_body q = Some (prune (JObj [("product"%string, prep_product pr)]))
    /\ Forall product_untouched rest
    /\ ((exists e, o = RowCreateError e /\ c = None /\ rest = [])
        \/ (o = RowNoId /\ c = None /\ rest = [])
        \/ (exists pid, o = RowCreated pid /\ truthy pid = true
            /\ c = Some {| ce_row := rownum; ce_id := pid; ce_name := prep_name pr;
                           ce_slug := prep_slug pr |})).
Proof.
  intros H1 H2 H3 pr. unfold process_row. rewrite H1, H2.
  cbn -[prepare_row try_create attach_media attach_category]. rewrite H3.
  cbn -[prepare_row try_create attach_media attach_category]. fold pr. unfold bind.
  destruct (try_create_spec RS remote api_key site_id (prep_product pr) w)
    as [q [v [Hs [He [HM [Hb Hv]]]]]].
  destruct (try_create RS remote api_key site_id (prep_product pr) w) as [w1 r1].
  simpl in Hs, Hv. subst r1.
  destruct v as [pid | e].
  - destruct (truthy pid) eqn:Ht; cbn -[prepare_row try_create attach_media attach_category].
    + unfold bind.
      pose proof (attach_media_ok RS remote api_key site_id pid (prep_images pr) w1) as Hm.
      destruct (attach_media_untouched RS remote api_key site_id pid (prep_images pr) w1)
        as [l1 [Hl1 F1]].
      destruct (attach_media RS remote api_key site_id pid (prep_images pr) w1)
        as [w2 r2]. simpl in Hm, Hl1. subst r2.
      pose proof (attach_category_ok RS remote api_key site_id pid (prep_categoria pr) w2)
        as Hc.
      destruct (attach_category_untouched RS remote api_key site_id pid (prep_categoria pr) w2)
        as [l2 [Hl2 F2]].
      destruct (attach_category RS remote api_key site_id pid (prep_categoria pr) w2)
        as [w3 r3]. simpl in Hc, Hl2. subst r3. cbn -[prepare_row].
      exists q, (l1 ++ l2), (RowCreated pid).
      eexists. split; [| split; [reflexivity | split; [exact He | split; [exact HM | split; [exact Hb | split]]]]].
      * rewrite Hl2, Hl1, Hs. now rewrite <- !app_assoc.
      * now apply Forall_app.
      * right; right. eexists. split; [reflexivity | split; [exact Ht | reflexivity]].
    + exists q, [], RowNoId, None. rewrite Hs. repeat split; auto.
  - cbn -[prepare_row]. exists q, [], (RowCreateError e), None. rewrite Hs. repeat split; auto.
    left. eauto.
Qed.


Lemma to_float_kg_cases s :
  (exists v, to_float_kg s = Ok v) \/ to_float_kg s = Raise ValueError.
Proof.
  unfold to_float_kg.
  repeat match goal with
         | |- context [match ?x with _ => _ end] => destruct x
         | |- context [if ?x then _ else _] => destruct x
         end; eauto.
Qed.

(** In dry-run mode a row leaves the world as it found it. *)
Lemma process_row_dry_world r w :
  fst (prow true rownum r w) = w
  /\ ((exists o, snd (prow true rownum r w) = Ok o)
      \/ snd (prow true rownum r w) = Raise ValueError).
Proof.
  destruct (url_ok r) eqn:U.
  - destruct (row_price r) as [price |] eqn:P.
    + destruct (to_float_kg_cases (rget r "peso_kg")) as [[v Hv] | Hv].
      * rewrite (process_row_dry r price v w U P Hv). simpl; eauto.
      * rewrite (process_row_bad_weight true r price w U P Hv). simpl; auto.
    + rewrite (process_row_bad_price true r w U P). simpl; eauto.
  - rewrite (process_row_bad_url true r w U). simpl; eauto.
Qed.

(** The first request of a live row that passes the checks is the create
    request of its product; no product request follows it. *)
Lemma process_row_live_first r price peso0 w :
  url_ok r = true -> row_price r = Some price -> to_float_kg (rget r "peso_kg") = Ok peso0 ->
  let pr := prepare_row r price peso0 (fetch_from_page (py_str_opt (row_url r))) in
  exists rest,
    w_sent RS (fst (prow false rownum r w))
    = w_sent RS w ++ create_request api_key site_id (prep_product pr) :: rest
    /\ Forall product_untouched rest.
Proof.
  intros H1 H2 H3 pr. unfold process_row. rewrite H1, H2.
  cbn -[prepare_row try_create attach_media attach_category]. rewrite H3.
  cbn -[prepare_row try_create attach_media attach_category]. fold pr. unfold bind.
  pose proof (try_create_sent RS remote api_key site_id (prep_product pr) w) as Hs.
  destruct (try_create RS remote api_key site_id (prep_product pr) w) as [w1 r1].
  simpl in Hs.
  destruct r1 as [[pid | e] | e]; cbn -[prepare_row try_create attach_media attach_category].
  - destruct (truthy pid); cbn -[prepare_row try_create attach_media attach_category].
    + unfold bind.
      pose proof (attach_media_ok RS remote api_key site_id pid (prep_images pr) w1) as Hm.
      destruct (attach_media_untouched RS remote api_key site_id pid (prep_images pr) w1)
        as [l1 [Hl1 F1]].
      destruct (attach_media RS remote api_key site_id pid (prep_images pr) w1)
        as [w2 r2]. simpl in Hm, Hl1. subst r2.
      pose proof (attach_category_ok RS remote api_key site_id pid (prep_categoria pr) w2)
        as Hc.
      destruct (attach_category_untouched RS remote api_key site_id pid (prep_categoria pr) w2)
        as [l2 [Hl2 F2]].
      destruct (attach_category RS remote api_key site_id pid (prep_categoria pr) w2)
        as [w3 r3]. simpl in Hc, Hl2. subst r3. cbn -[prepare_row].
      exists (l1 ++ l2). split; [| now apply Forall_app].
      rewrite Hl2, Hl1, Hs. now rewrite <- !app_assoc.
    + exists []. split; [exact Hs | constructor].
  - exists []. split; [exact Hs | constructor].
  - exists []. split; [exact Hs | constructor].
Qed.

(** A live row that passes the checks and whose create is answered with
    a status of 300 or more: the row ends as a create error, with that
    create as its only request. *)
Lemma process_row_create_rejected r price peso0 w rs' status text parsed :
  url_ok r = true -> row_price r = Some price -> to_float_kg (rget r "peso_kg") = Ok peso0 ->
  let q := create_request api_key site_id
             (prep_product (prepare_row r price peso0 (fetch_from_page (py_str_opt (row_url r))))) in
  remote (w_remote RS w) q = (rs', Response status text parsed) ->
  (300 <= status)%Z ->
  prow false rownum r w
  = ({| w_remote := rs'; w_sent := w_sent RS w ++ [q] |},
     Ok (RowCreateError (RuntimeError "POST" EP_products status (PyStr.take 1200 text)), None)).
Proof.
  intros H1 H2 H3 q Hq Hs. unfold process_row. rewrite H1, H2.
  cbn -[prepare_row try_create]. rewrite H3. cbn -[prepare_row try_create]. unfold bind.
  rewrite (try_create_rejected RS remote api_key site_id _ w rs' status text parsed Hq Hs).
  reflexivity.
Qed.

(** C1: in live mode, a row that passes the URL and price checks and
    whose weight parses sends the create request of its product
    (a POST to the products endpoint) as its first request, in every
    state of the remote store, so also when the product was created by
    an earlier run.  No product query and no other product request
    follows it: only media and collection requests.  The row ends as a
    create error (no further request), without an id (no further
    request), or created; when the store answers the create with a
    status of 300 or more (a duplicate, say) it ends as a create error
    with nothing added to [created].  There is no [Updated] outcome. *)
Theorem live_row_creates_first r w price peso0 :
  url_ok r = true -> row_price r = Some price -> to_float_kg (rget r "peso_kg") = Ok peso0 ->
  let pr := prepare_row r price peso0 (fetch_from_page (py_str_opt (row_url r))) in
  let q := create_request api_key site_id (prep_product pr) in
  exists rest o c,
    w_sent RS (fst (process_row RS remote fetch_from_page api_key site_id false rownum r w))
    = w_sent RS w ++ q :: rest
    /\ Forall product_untouched rest
    /\ snd (process_row RS remote fetch_from_page api_key site_id false rownum r w) = Ok (o, c)
    /\ ((exists e, o = RowCreateError e /\ c = None /\ rest = [])
        \/ (o = RowNoId /\ c = None /\ rest = [])
        \/ (exists pid, o = RowCreated pid /\ truthy pid = true
            /\ c = Some {| ce_row := rownum; ce_id := pid; ce_name := prep_name pr;
                           ce_slug := prep_slug pr |}))
    /\ (forall rs' status text parsed,
          remote (w_remote RS w) q = (rs', Response status text parsed) ->
          (300 <= status)%Z ->
          o = RowCreateError (RuntimeError "POST" EP_products status (PyStr.take 1200 text))
          /\ c = None /\ rest = []).
Proof.
  intros H1 H2 H3 pr q.
  destruct (process_row_live r price peso0 w H1 H2 H3)
    as [q' [rest [o [c [Hs [Hr [_ [_ [_ [F Hcase]]]]]]]]]].
  destruct (process_row_live_first r price peso0 w H1 H2 H3) as [rest' [Hs' _]].
  rewrite Hs' in Hs. apply app_inv_head in Hs. injection Hs as Hq' Hrest. subst q' rest'.
  exists rest, o, c. split; [exact Hs' |]. split; [exact F |]. split; [exact Hr |].
  split; [exact Hcase |].
  intros rs' status text parsed Hq Hst.
  pose proof (process_row_create_rejected r price peso0 w rs' status text parsed H1 H2 H3 Hq Hst)
    as E.
  rewrite E in Hr, Hs'. simpl in Hr, Hs'. injection Hr as <- <-.
  apply app_inv_head in Hs'. injection Hs' as ->. auto.
Qed.

(** C2: there is no duplicate-key handling: when the create request of a
    live row that passes the checks is answered with a status of 300 or
    more (the store's duplicate-SKU rejection among them), [wix_request]
    raises and the row ends as a create error right there.  The create
    is the row's only request (no retry, no second lookup), the store is
    left as the answer made it, and nothing is added to [created]. *)
Theorem create_error_no_retry r price peso0 w rs' status text parsed :
  url_ok r = true -> row_price r = Some price -> to_float_kg (rget r "peso_kg") = Ok peso0 ->
  let q := create_request api_key site_id
             (prep_product (prepare_row r price peso0 (fetch_from_page (py_str_opt (row_url r))))) in
  remote (w_remote RS w) q = (rs', Response status text parsed) ->
  (300 <= status)%Z ->
  process_row RS remote fetch_from_page api_key site_id false rownum r w
  = ({| w_remote := rs'; w_sent := w_sent RS w ++ [q] |},
     Ok (RowCreateError (RuntimeError "POST" EP_products status (PyStr.take 1200 text)), None)).
Proof. exact (process_row_create_rejected r price peso0 w rs' status text parsed). Qed.

(** Which outcome a row gets, when its weight parses. *)
Lemma process_row_classified dry r w p :
  to_float_kg (rget r "peso_kg") = Ok p ->
  exists o c, snd (prow dry rownum r w) = Ok (o, c)
    /\ (o = RowInvalidUrl <-> url_ok r = false)
    /\ (o = RowInvalidPrice <-> url_ok r = true /\ row_price r = None).
Proof.
  intro Hv.
  destruct (url_ok r) eqn:U.
  - destruct (row_price r) as [price |] eqn:P.
    + destruct dry.
      * rewrite (process_row_dry r price p w U P Hv).
        exists RowDryRun, None. repeat split; try discriminate; intros [? ?]; discriminate.
      * destruct (process_row_live r price p w U P Hv)
          as [q [rest [o [c [_ [Hr [_ [_ [_ [_ Hcase]]]]]]]]]].
        exists o, c. split; [exact Hr |].
        destruct Hcase as [[e [-> _]] | [[-> _] | [pid [-> _]]]];
          repeat split; try discriminate; intros [? ?]; discriminate.
    + rewrite (process_row_bad_price dry r w U P).
      exists RowInvalidPrice, None. repeat split; auto; discriminate.
  - rewrite (process_row_bad_url dry r w U).
    exists RowInvalidUrl, None. repeat split; auto; try discriminate.
    intros [? ?]; discriminate.
Qed.
End Rows.

Section Batch.
Variable RS : Type.
Variable remote : RS -> http_request -> RS * http_response.
Variable fetch_from_page : string -> scraped.
Variables (api_key site_id : string).

Local Abbreviation rows_run := (run_rows RS remote fetch_from_page api_key site_id).

(** When no weight raises, the loop runs to its end, and the two skip
    outcomes are given by the URL and price checks. *)
Lemma run_rows_complete dry rows w :
  Forall (fun nr => exists p, to_float_kg (rget (snd nr) "peso_kg") = Ok p) rows ->
  exists outs created,
    snd (rows_run dry rows w) = Ok (outs, created)
    /\ Forall2 (fun nr o =>
                  (o = RowInvalidUrl <-> url_ok (snd nr) = false)
                  /\ (o = RowInvalidPrice <-> url_ok (snd nr) = true /\ row_price (snd nr) = None))
               rows outs.
Proof.
  revert w. induction rows as [| [n r] rows IH]; intros w HF.
  - exists [], []. split; [reflexivity | constructor].
  - inversion HF as [| ? ? [p Hp] HF']; subst. simpl in Hp.
    destruct (process_row_classified RS remote fetch_from_page api_key site_id n dry r w p Hp)
      as [o [c [Hr Ho]]].
    simpl. unfold bind.
    destruct (process_row RS remote fetch_from_page api_key site_id dry n r w) as [w1 r1].
    simpl in Hr. subst r1.
    destruct (IH w1 HF') as [outs [created [Hrest Hall]]].
    destruct (rows_run dry rows w1) as [w2 r2]. simpl in Hrest. subst r2.
    simpl. eexists _, _. split; [reflexivity |].
    constructor; [exact Ho | exact Hall].
Qed.

(** C5: a row is skipped (the loop moves on to the next row) exactly
    when its URL is not http(s) or its price is missing, unparsable or
    not positive: whether a row is skipped depends on these two checks
    only, so a missing sku or name skips nothing.  The create, media and
    collection requests cannot stop the loop, whatever the store answers:
    provided no [peso_kg] makes [to_float_kg] raise, the loop runs to its
    end with one outcome per row, in order. *)
Theorem run_rows_outcomes dry rows w :
  Forall (fun nr => exists p, to_float_kg (rget (snd nr) "peso_kg") = Ok p) rows ->
  exists outs created,
    snd (rows_run dry rows w) = Ok (outs, created)
    /\ Forall2 (fun nr o =>
                  (o = RowInvalidUrl <-> url_ok (snd nr) = false)
                  /\ (o = RowInvalidPrice <-> url_ok (snd nr) = true /\ row_price (snd nr) = None))
               rows outs.
Proof. apply run_rows_complete. Qed.

End Batch.

Section MainRun.
Variable RS : Type.
Variable remote : RS -> http_request -> RS * http_response.
Variable fetch_from_page : string -> scraped.

Local Abbreviation prow := (process_row RS remote fetch_from_page).
Local Abbreviation rows_run := (run_rows RS remote fetch_from_page).
Local Abbreviation run_main := (main RS remote fetch_from_page).

Lemma precheck_query_only api_key site_id :
  appends_only is_query (precheck RS remote api_key site_id).
Proof.
  unfold precheck. apply ao_try; [| intro; apply ao_ret].
  apply ao_bind; [apply ao_wix; intros q Hq; exact Hq | intro].
  effects.
Qed.

Lemma precheck_ok api_key site_id w :
  exists b, snd (precheck RS remote api_key site_id w) = Ok b.
Proof.
  unfold precheck, try_except.
  assert (Hn : never_exits
    (res <- wix_request RS remote "POST" EP_products_query api_key site_id
                        (Some (JObj [("query"%string, JObj [])])) ;;
     p <- lift (dict_get res "products") ;;
     items <- (if truthy p then ret p
               else i <- lift (dict_get res "items") ;; ret (json_or i (JArr []))) ;;
     _ <- lift (py_len items) ;;
     ret true)).
  { effects. }
  specialize (Hn w).
  match goal with |- context [match ?x w with _ => _ end] =>
    destruct (x w) as [w1 [b | e]] end; simpl in *; [eauto |].
  destruct e; simpl; eauto. exfalso. eapply Hn; reflexivity.
Qed.

Lemma run_rows_dry_world api_key site_id rows w :
  fst (rows_run api_key site_id true rows w) = w
  /\ ((exists v, snd (rows_run api_key site_id true rows w) = Ok v)
      \/ snd (rows_run api_key site_id true rows w) = Raise ValueError).
Proof.
  revert w. induction rows as [| [n r] rows IH]; intro w; [simpl; eauto |].
  simpl. unfold bind.
  destruct (process_row_dry_world RS remote fetch_from_page api_key site_id n r w) as [Hw Hr].
  destruct (prow api_key site_id true n r w) as [w1 r1]. simpl in Hw, Hr. subst w1.
  destruct Hr as [[o ->] | ->]; [| simpl; auto].
  destruct (IH w) as [Hw Hr].
  destruct (rows_run api_key site_id true rows w) as [w2 r2]. simpl in Hw, Hr. subst w2.
  destruct Hr as [[v ->] | ->]; simpl; eauto.
Qed.

(** C10: with [DRY_RUN=1] the run sends nothing but product queries: the
    precheck's read-only query, and nothing at all with [SKIP_PRECHECK=1]
    or without [WIX_API_KEY] or [WIX_SITE_ID]; so no product is created,
    no media added and no collection changed.  The exit code is never 2.
    It is 1 without [WIX_API_KEY] or [WIX_SITE_ID], 3 when the precheck
    fails, and otherwise, when no [peso_kg] makes [to_float_kg] raise, 0
    even though nothing was created. *)
Theorem dry_run_read_only env raws w :
  getenv_strip env "DRY_RUN" "0" = "1" ->
  let key := getenv_strip env "WIX_API_KEY" "" in
  let site := getenv_strip env "WIX_SITE_ID" "" in
  let skip := String.eqb (getenv_strip env "SKIP_PRECHECK" "0") "1" in
  (exists l, w_sent RS (fst (run_main env raws w)) = w_sent RS w ++ l
             /\ Forall (fun q => rq_endpoint q = EP_products_query) l
             /\ (skip = true \/ key = "" \/ site = "" -> l = []))
  /\ exit_status (snd (run_main env raws w)) <> 2%Z
  /\ (key = "" \/ site = "" -> exit_status (snd (run_main env raws w)) = 1%Z)
  /\ (key <> "" -> site <> "" -> skip = false ->
      snd (precheck RS remote key site w) = Ok false ->
      exit_status (snd (run_main env raws w)) = 3%Z)
  /\ (key <> "" -> site <> "" ->
      (skip = true \/ snd (precheck RS remote key site w) = Ok true) ->
      Forall (fun nr => exists p, to_float_kg (rget (snd nr) "peso_kg") = Ok p) (read_rows raws) ->
      exit_status (snd (run_main env raws w)) = 0%Z).
Proof.
  intros Hd key site skip. unfold main. fold key site skip. rewrite Hd.
  simpl (String.eqb "1" "1"). cbv zeta.
  destruct (String.eqb key "") eqn:Ek.
  { apply String.eqb_eq in Ek. simpl.
    split; [exists []; rewrite app_nil_r; auto |].
    split; [discriminate |]. split; [auto |]. split; intros H; contradiction. }
  destruct (String.eqb site "") eqn:Es.
  { apply String.eqb_eq in Es. simpl.
    split; [exists []; rewrite app_nil_r; auto |].
    split; [discriminate |]. split; [auto |]. split; intros _ H; contradiction. }
  apply String.eqb_neq in Ek, Es. simpl.
  assert (Hkey : ~ (key = "" \/ site = "")) by tauto.
  (* the rows of a dry run *)
  assert (Hrows : forall w1,
    fst (rows_run key site true (read_rows raws) w1) = w1
    /\ exit_status (snd (match snd (rows_run key site true (read_rows raws) w1) with
                         | Ok res => match snd res with
                                     | [] => if negb true then throw (SystemExit 2) else ret tt
                                     | _ => ret tt end
                         | Raise e => fun w' => (w', Raise e) end w1)) <> 2%Z
    /\ (Forall (fun nr => exists p, to_float_kg (rget (snd nr) "peso_kg") = Ok p) (read_rows raws) ->
        exit_status (snd (match snd (rows_run key site true (read_rows raws) w1) with
                          | Ok res => match snd res with
                                      | [] => if negb true then throw (SystemExit 2) else ret tt
                                      | _ => ret tt end
                          | Raise e => fun w' => (w', Raise e) end w1)) = 0%Z)).
  { intro w1. destruct (run_rows_dry_world key site (read_rows raws) w1) as [Hw Hr].
    split; [exact Hw |]. split.
    - destruct Hr as [[[outs created] ->] | ->]; simpl; [destruct created |]; discriminate.
    - intro HF.
      destruct (run_rows_complete RS remote fetch_from_page key site true (read_rows raws) w1 HF)
        as [outs [created [Hok _]]].
      rewrite Hok. simpl. destruct created; reflexivity. }
  destruct skip eqn:Esk.
  - unfold bind. simpl.
    destruct (Hrows w) as [Hw [H2 H0]].
    destruct (rows_run key site true (read_rows raws) w) as [w2 r2] eqn:Er.
    simpl in Hw. subst w2. simpl in H2, H0 |- *.
    destruct r2 as [[outs created] | e]; simpl in H2, H0 |- *.
    + split; [exists []; split; [destruct created; simpl; now rewrite app_nil_r |
                                 split; auto] |].
      split; [exact H2 |]. split; [tauto |]. split; [discriminate |].
      intros _ _ _ HF. exact (H0 HF).
    + split; [exists []; split; [now rewrite app_nil_r | split; auto] |].
      split; [exact H2 |]. split; [tauto |]. split; [discriminate |].
      intros _ _ _ HF. exact (H0 HF).
  - unfold bind.
    destruct (precheck_query_only key site w) as [l [Hl Fl]].
    destruct (precheck_ok key site w) as [b Hb].
    destruct (precheck RS remote key site w) as [w1 r1]. simpl in Hl, Hb. subst r1.
    destruct b; simpl.
    + destruct (Hrows w1) as [Hw [H2 H0]].
      destruct (rows_run key site true (read_rows raws) w1) as [w2 r2].
      simpl in Hw. subst w2. simpl in H2, H0 |- *.
      destruct r2 as [[outs created] | e]; simpl in H2, H0 |- *.
      * split; [exists l; split; [destruct created; exact Hl |
                                  split; [exact Fl | intros [H | H]; [discriminate | tauto]]] |].
        split; [exact H2 |]. split; [tauto |]. split; [intros _ _ _ H; discriminate |].
        intros _ _ _ HF. exact (H0 HF).
      * split; [exists l; split; [exact Hl |
                                  split; [exact Fl | intros [H | H]; [discriminate | tauto]]] |].
        split; [exact H2 |]. split; [tauto |]. split; [intros _ _ _ H; discriminate |].
        intros _ _ _ HF. exact (H0 HF).
    + split; [exists l; split; [exact Hl |
                                split; [exact Fl | intros [H | H]; [discriminate | tauto]]] |].
      split; [discriminate |]. split; [tauto |]. split; [reflexivity |].
      intros _ _ [H | H]; discriminate.
Qed.

(** C8: the exit code of [main]: 1 without credentials, 3 when the
    precheck fails; when the rows run to the end, 0 if a product was
    created or [DRY_RUN=1], and 2 otherwise; an exception that escapes
    the rows ends the run as it is. *)
Theorem main_exit_code env raws w :
  let key := getenv_strip env "WIX_API_KEY" "" in
  let site := getenv_strip env "WIX_SITE_ID" "" in
  let dry := String.eqb (getenv_strip env "DRY_RUN" "0") "1" in
  let pre := if String.eqb (getenv_strip env "SKIP_PRECHECK" "0") "1" then ret true
             else precheck RS remote key site in
  ((key = "" \/ site = "") -> exit_status (snd (run_main env raws w)) = 1%Z)
  /\ (key <> "" -> site <> "" -> snd (pre w) = Ok false ->
      exit_status (snd (run_main env raws w)) = 3%Z)
  /\ (forall outs created,
        key <> "" -> site <> "" -> snd (pre w) = Ok true ->
        snd (rows_run key site dry (read_rows raws) (fst (pre w))) = Ok (outs, created) ->
        exit_status (snd (run_main env raws w))
        = match created with [] => if dry then 0%Z else 2%Z | _ :: _ => 0%Z end)
  /\ (forall e,
        key <> "" -> site <> "" -> snd (pre w) = Ok true ->
        snd (rows_run key site dry (read_rows raws) (fst (pre w))) = Raise e ->
        snd (run_main env raws w) = Raise e).
Proof.
  intros key site dry pre. unfold main. fold key site dry pre.
  split; [| split; [| split]].
  - intros [H | H]; rewrite H; [reflexivity |].
    rewrite orb_true_r. reflexivity.
  - intros Hk Hs Hp.
    apply String.eqb_neq in Hk, Hs. rewrite Hk, Hs. simpl. unfold bind.
    destruct (pre w) as [w1 r1]. simpl in Hp. subst r1. reflexivity.
  - intros outs created Hk Hs Hp Hr.
    apply String.eqb_neq in Hk, Hs. rewrite Hk, Hs. simpl. unfold bind.
    destruct (pre w) as [w1 r1]. simpl in Hp, Hr. subst r1. simpl.
    destruct (rows_run key site dry (read_rows raws) w1) as [w2 r2].
    simpl in Hr. subst r2. simpl. fold dry.
    destruct created; [destruct dry |]; reflexivity.
  - intros e Hk Hs Hp Hr.
    apply String.eqb_neq in Hk, Hs. rewrite Hk, Hs. simpl. unfold bind.
    destruct (pre w) as [w1 r1]. simpl in Hp, Hr. subst r1. simpl.
    destruct (rows_run key site dry (read_rows raws) w1) as [w2 r2].
    simpl in Hr. subst r2. reflexivity.
Qed.

End MainRun.

(** ** Prices *)

Lemma round_half_even_div_small (a : Z) (b : positive) :
  (0 <= a)%Z -> (2 * a <= Zpos b)%Z -> round_half_even_div a b = 0%Z.
Proof.
  intros H0 H2. unfold round_half_even_div.
  assert (Hlt : (a < Zpos b)%Z) by lia.
  pose proof (Z.div_small a (Zpos b) (conj H0 Hlt)) as Hd.
  pose proof (Z.mod_small a (Zpos b) (conj H0 Hlt)) as Hm.
  unfold Z.div, Z.modulo in Hd, Hm.
  destruct (Z.div_eucl a (Zpos b)) as [q r]. simpl in Hd, Hm. subst q r.
  destruct (Z.compare_spec (2 * a) (Zpos b)); [reflexivity | reflexivity | lia].
Qed.

(** C4: [compute_prices] has no clamp: whenever the exact value of the
    product [base * 0.30] lies in [[0, 0.005]], the deposit is a zero. *)
Theorem deposit_rounds_to_zero (base : float) (q : Q) :
  sf_value (fmul base lit_0_30) = Some q -> (0 <= q)%Q -> (q <= 1 # 200)%Q ->
  exists s, fst (compute_prices base) = S754_zero s.
Proof.
  intros Hv H0 H1. unfold compute_prices. simpl.
  destruct (fmul base lit_0_30) as [s | s | | s m e]; simpl in Hv; try discriminate.
  - exists s. reflexivity.
  - destruct (0 <=? e)%Z eqn:He.
    + injection Hv as <-. exfalso. apply Z.leb_le in He.
      unfold Qle, inject_Z in H0, H1. cbn [Qnum Qden] in H0, H1.
      assert (0 < 2 ^ e)%Z by (apply Z.pow_pos_nonneg; [reflexivity | exact He]).
      destruct s; nia.
    + injection Hv as <-. unfold py_round2. rewrite He. apply Z.leb_gt in He.
      assert (Hp : (0 < 2 ^ (- e))%Z) by (apply Z.pow_pos_nonneg; lia).
      assert (Hpos : Zpos (Z.to_pos (2 ^ (- e))) = (2 ^ (- e))%Z) by (apply Z2Pos.id; lia).
      destruct s.
      * exfalso. unfold Qle in H0. cbn [Qnum Qden] in H0. lia.
      * unfold Qle in H1. cbn [Qnum Qden] in H1. rewrite Hpos in H1.
        rewrite round_half_even_div_small by (try rewrite Hpos; lia).
        exists false. reflexivity.
Qed.

(** C3: for a preorder product the base price is the product's
    [priceData.price]; the two variants carry [round(base * 0.30, 2)] and
    [round(base * 0.95, 2)] as their [priceData], whose only key is
    [price] (no compare-at value); and these are, for 100 and 19.99,
    the prices 30.0 and 95.0, and 6.0 and 18.99. *)
Theorem preorder_prices name slug visible descr base brand images sku peso :
  let p := build_product name slug visible descr base brand images true sku peso in
  dict_get p "priceData" = Ok (JObj [("price", JFloat base)])
  /\ dict_get p "variants"
     = Ok (JArr [variant_json CHOICE_DEPOSIT (py_round2 (fmul base lit_0_30)) sku "-DEP" peso;
                 variant_json CHOICE_FULLPAY (py_round2 (fmul base lit_0_95)) sku "-FULL" peso])
  /\ (forall choice price suffix,
        dict_get (variant_json choice price sku suffix peso) "priceData"
        = Ok (JObj [("price", JFloat price)]))
  /\ compute_prices (nearest_ratio 100 1) = (nearest_ratio 30 1, nearest_ratio 95 1)
  /\ compute_prices (nearest_ratio 1999 100) = (nearest_ratio 6 1, nearest_ratio 1899 100).
Proof.
  intro p. split; [| split; [| split; [| split]]].
  - reflexivity.
  - reflexivity.
  - intros. reflexivity.
  - vm_compute. reflexivity.
  - vm_compute. reflexivity.
Qed.

(** ** The description header *)

Open Scope string_scope.

Lemma string_app_assoc (a b c : string) : (a ++ b) ++ c = a ++ b ++ c.
Proof. induction a as [| x a IH]; simpl; [reflexivity | now rewrite IH]. Qed.

(** C6: the description that [main] sends.  Without ETA and deadline the
    body is kept as it is; otherwise the header lines
    ["Uscita prevista: <eta>"] and
    ["Chiusura preordine : <deadline> Salvo esaurimento"] (those present,
    in that order, one per line) are followed by one blank line and then
    the body, even when the body is empty ([str] of a missing body is
    ["None"]). *)
Theorem compose_description_cases eta deadline descr :
  compose_description eta deadline descr
  = match String.eqb eta "", String.eqb deadline "" with
    | true, true => descr
    | false, true => Some ("Uscita prevista: " ++ eta ++ NL ++ NL ++ py_str_opt descr)
    | true, false =>
        Some ("Chiusura preordine : " ++ deadline ++ " Salvo esaurimento"
              ++ NL ++ NL ++ py_str_opt descr)
    | false, false =>
        Some ("Uscita prevista: " ++ eta ++ NL ++ "Chiusura preordine : " ++ deadline
              ++ " Salvo esaurimento" ++ NL ++ NL ++ py_str_opt descr)
    end.
Proof.
  unfold compose_description, NL.
  destruct (String.eqb eta ""), (String.eqb deadline ""); cbn [List.app String.concat];
    try reflexivity; repeat rewrite string_app_assoc; reflexivity.
Qed.

Open Scope list_scope.

(** ** The category resolver *)

Lemma first_match_find (p : string -> bool) (items : list json) :
  forallb well_named items = true ->
  first_match p items
  = Ok (option_map item_id (find (fun c => p (PyStr.strip (item_name c))) items)).
Proof.
  induction items as [| c t IH]; intro H; [reflexivity |].
  simpl in H. apply andb_true_iff in H as [Hc Ht].
  unfold well_named in Hc. destruct c as [| | | | | | kv]; try discriminate.
  unfold item_name, name_field in *. simpl in *.
  destruct (json_or _ _) as [| | | | s | |]; try discriminate.
  destruct (p (PyStr.strip s)); [reflexivity | now apply IH].
Qed.

Section Resolver.
Variable RS : Type.
Variable remote : RS -> http_request -> RS * http_response.

(** C7: the resolver maps the name through [CATEGORY_ALIASES] (keyed by
    the stripped, lowercased name), normalises it (runs of whitespace to
    one space, stripped, lowercased), and scans the collections followed
    by the categories twice: first for a name whose normalisation equals
    the target, then for one whose normalisation starts with it; the
    first hit's [id] is returned, [None] if neither pass finds one. *)
Theorem resolver_two_passes api_key site_id name w cols cats :
  name <> "" ->
  snd (list_collections RS remote api_key site_id w) = Ok (JArr cols) ->
  snd (list_categories RS remote api_key site_id (fst (list_collections RS remote api_key site_id w)))
    = Ok (JArr cats) ->
  forallb well_named (cols ++ cats) = true ->
  let target := normalize_name (alias_category name) in
  let nm c := normalize_name (PyStr.strip (item_name c)) in
  snd (find_category_or_collection_id RS remote api_key site_id name w)
  = Ok (match find (fun c => String.eqb (nm c) target) (cols ++ cats) with
        | Some c => item_id c
        | None =>
            match find (fun c => PyStr.startswith (nm c) target) (cols ++ cats) with
            | Some c => item_id c
            | None => JNull
            end
        end).
Proof.
  intros Hn Hc Hk Hw target nm.
  unfold find_category_or_collection_id.
  apply String.eqb_neq in Hn. rewrite Hn. cbv zeta. unfold bind.
  destruct (list_collections RS remote api_key site_id w) as [w1 r1]. simpl in Hc, Hk.
  subst r1.
  destruct (list_categories RS remote api_key site_id w1) as [w2 r2]. simpl in Hk. subst r2.
  simpl. rewrite !(first_match_find _ _ Hw).
  subst target nm. unfold alias_category. cbv beta.
  destruct (find _ (cols ++ cats)); simpl; [reflexivity |].
  destruct (find _ (cols ++ cats)); reflexivity.
Qed.

End Resolver.

(** ** Runs of the example stores *)

Import ToyRemote.

Ltac decide_concrete :=
  vm_compute; first [reflexivity | intros ?HH; discriminate HH].

(** The row of scenario A in its second run, where the store already
    holds the product: its first request is the create, the store answers
    400, and the row ends as a create error with no further request. *)
Lemma live_row_creates_first_witness :
  exists rest o c,
    w_sent store (fst (process_row store step no_page "key" "site" false 2 (norm_row row_A)
                         (fst (run env_live [row_A] start))))
    = w_sent store (fst (run env_live [row_A] start))
      ++ create_request "key" "site"
           (prep_product (prepare_row (norm_row row_A) (nearest_ratio 100 1) None
                            (no_page (py_str_opt (row_url (norm_row row_A)))))) :: rest
    /\ snd (process_row store step no_page "key" "site" false 2 (norm_row row_A)
              (fst (run env_live [row_A] start))) = Ok (o, c)
    /\ o = RowCreateError dup_error /\ c = None /\ rest = [].
Proof.
  pose proof (live_row_creates_first store step no_page "key" "site" 2 (norm_row row_A)
                (fst (run env_live [row_A] start)) (nearest_ratio 100 1) None) as H.
  cbv zeta in H.
  destruct H as [rest [o [c [Hs [_ [Hr [_ Hrej]]]]]]];
    [decide_concrete | decide_concrete | decide_concrete |].
  destruct (Hrej (w_remote store (fst (run env_live [row_A] start))) 400%Z
              "duplicate: a product with this SKU already exists"
              (Some (JObj [("message", JStr "duplicate: a product with this SKU already exists")])))
    as [Ho [Hc Hrest]]; [decide_concrete | lia |].
  exists rest, o, c. split; [exact Hs |]. split; [exact Hr |].
  split; [rewrite Ho; reflexivity | split; assumption].
Defined.

(** Running scenario A twice: the second run creates again, the store
    rejects the duplicate, and the row ends as a create error; the run
    exits with 2. *)
Lemma second_run_not_updated :
  exit_status (snd (run env_live [row_A] start)) = 0%Z
  /\ snd (run_rows store step no_page "key" "site" false (read_rows [row_A])
            (fst (run env_live [row_A] start)))
     = Ok ([RowCreateError dup_error], [])
  /\ map fst (w_remote store (fst (run env_live [row_A] (fst (run env_live [row_A] start)))))
     = ["prod-1"]
  /\ map rq_endpoint (w_sent store (fst (run env_live [row_A] (fst (run env_live [row_A] start)))))
     = [EP_products_query; EP_products; EP_products_query; EP_products]
  /\ exit_status (snd (run env_live [row_A] (fst (run env_live [row_A] start)))) = 2%Z.
Proof. repeat split; vm_compute; reflexivity. Qed.

Lemma create_error_no_retry_witness :
  process_row store step no_page "key" "site" false 2 (norm_row row_A)
    (fst (run env_live [row_A] start))
  = ({| w_remote := w_remote store (fst (run env_live [row_A] start));
        w_sent := w_sent store (fst (run env_live [row_A] start))
                  ++ [create_request "key" "site"
                        (prep_product (prepare_row (norm_row row_A) (nearest_ratio 100 1) None
                                         (no_page (py_str_opt (row_url (norm_row row_A))))))] |},
     Ok (RowCreateError dup_error, None)).
Proof.
  apply (create_error_no_retry store step no_page "key" "site" 2 (norm_row row_A)
           (nearest_ratio 100 1) None (fst (run env_live [row_A] start))
           (w_remote store (fst (run env_live [row_A] start))) 400%Z
           "duplicate: a product with this SKU already exists"
           (Some (JObj [("message", JStr "duplicate: a product with this SKU already exists")])));
    [decide_concrete | decide_concrete | decide_concrete | decide_concrete | lia].
Defined.

(** The store already holds the product of scenario A, the create is
    rejected as a duplicate, and the row ends as a create error: no
    product query follows the rejected create. *)
Lemma duplicate_not_relocated :
  map fst (w_remote store (fst (run env_live [row_A] start))) = ["prod-1"]
  /\ snd (process_row store step no_page "key" "site" false 2 (norm_row row_A)
            (fst (run env_live [row_A] start)))
     = Ok (RowCreateError dup_error, None)
  /\ map rq_endpoint (w_sent store (fst (process_row store step no_page "key" "site" false 2
                                          (norm_row row_A) (fst (run env_live [row_A] start)))))
     = [EP_products_query; EP_products; EP_products].
Proof. repeat split; vm_compute; reflexivity. Qed.

(** For a base price of 100 the prepay variant holds only its choice and
    the price 95.0: the base price appears nowhere in it. *)
Lemma prepay_variant_without_base :
  map snd (leaves (variant_json CHOICE_FULLPAY (snd (compute_prices (nearest_ratio 100 1)))
                                None "-FULL" None))
  = [JStr CHOICE_FULLPAY; JFloat (nearest_ratio 95 1)]
  /\ ~ In (JFloat (nearest_ratio 100 1))
          (map snd (leaves (variant_json CHOICE_FULLPAY
                                         (snd (compute_prices (nearest_ratio 100 1)))
                                         None "-FULL" None))).
Proof.
  split; [vm_compute; reflexivity |].
  intro H. vm_compute in H. destruct H as [H | [H | []]]; discriminate H.
Qed.

Lemma deposit_rounds_to_zero_witness :
  exists s, fst (compute_prices (nearest_ratio 1 100)) = S754_zero s.
Proof.
  apply (deposit_rounds_to_zero (nearest_ratio 1 100)
           (match sf_value (fmul (nearest_ratio 1 100) lit_0_30) with
            | Some q => q | None => 0%Q end));
    decide_concrete.
Defined.

(** Base price 0.01: the deposit is 0.0 and the prepay price 0.01. *)
Lemma cent_deposit_is_zero :
  compute_prices (nearest_ratio 1 100) = (S754_zero false, nearest_ratio 1 100)
  /\ fpos (fst (compute_prices (nearest_ratio 1 100))) = false.
Proof. split; vm_compute; reflexivity. Qed.

Lemma run_rows_outcomes_witness :
  exists outs created,
    snd (run_rows store step no_page "key" "site" false
           (read_rows [row_A; row_B; row_C; row_D]) start) = Ok (outs, created)
    /\ Forall2 (fun nr o =>
                  (o = RowInvalidUrl <-> url_ok (snd nr) = false)
                  /\ (o = RowInvalidPrice <-> url_ok (snd nr) = true /\ row_price (snd nr) = None))
               (read_rows [row_A; row_B; row_C; row_D]) outs.
Proof.
  apply (run_rows_outcomes store step no_page "key" "site" false
           (read_rows [row_A; row_B; row_C; row_D]) start).
  repeat (apply Forall_cons; [exists None; vm_compute; reflexivity |]).
  apply Forall_nil.
Defined.

(** A row with URL and price but neither name nor SKU is not skipped: it
    is created, under the slug ["none"].  And a weight of ["1.2.3 kg"]
    makes [float] raise outside any handler: the run of the batch
    [row_E; row_A] stops at its first row, sends nothing for the second
    and exits with 1. *)
Lemma nameless_row_kept_and_weight_aborts :
  snd (run_rows store step no_page "key" "site" false (read_rows [row_B]) start)
  = Ok ([RowCreated (JStr "prod-1")],
        [{| ce_row := 2; ce_id := JStr "prod-1"; ce_name := None; ce_slug := "none" |}])
  /\ to_float_kg (Some "1.2.3 kg") = Raise ValueError
  /\ snd (run_rows store step no_page "key" "site" false (read_rows [row_E; row_A]) start)
     = Raise ValueError
  /\ map rq_endpoint (w_sent store (fst (run env_live [row_E; row_A] start)))
     = [EP_products_query]
  /\ exit_status (snd (run env_live [row_E; row_A] start)) = 1%Z.
Proof. repeat split; vm_compute; reflexivity. Qed.

(** An ETA with an empty body: the header is followed by a blank line and
    nothing, not sent alone; such a body arises when the CSV description
    and the scraped one are empty and the name is [""]. *)
Lemma header_with_empty_body :
  compose_description "Q1 2026" "" (Some "") = Some ("Uscita prevista: Q1 2026" ++ NL ++ NL)%string
  /\ compose_description "Q1 2026" "" (Some "") <> Some "Uscita prevista: Q1 2026"
  /\ description_body "" (no_page "https://maker.example/x") (Some "") = Some "".
Proof.
  split; [reflexivity | split; [| reflexivity]].
  intro H. vm_compute in H. discriminate H.
Qed.

Lemma resolver_two_passes_witness :
  snd (Catalog.resolve "Statue da collezione ") = Ok (JStr "col-1").
Proof.
  assert (H1 : "Statue da collezione " <> "") by discriminate.
  assert (H2 : snd (list_collections unit Catalog.step "key" "site" Catalog.start)
               = Ok (JArr Catalog.collections)) by (vm_compute; reflexivity).
  assert (H3 : snd (list_categories unit Catalog.step "key" "site"
                      (fst (list_collections unit Catalog.step "key" "site" Catalog.start)))
               = Ok (JArr Catalog.categories)) by (vm_compute; reflexivity).
  assert (H4 : forallb well_named (Catalog.collections ++ Catalog.categories) = true)
    by reflexivity.
  pose proof (resolver_two_passes unit Catalog.step "key" "site" _ Catalog.start
                Catalog.collections Catalog.categories H1 H2 H3 H4) as H.
  cbv zeta in H. unfold Catalog.resolve. rewrite H. vm_compute. reflexivity.
Defined.

(** ["Figure"] is a substring of the collection name ["Action Figure"],
    yet the resolver finds nothing: there is no substring pass. *)
Lemma no_substring_pass :
  snd (Catalog.resolve "Figure") = Ok JNull
  /\ In (Catalog.entry "col-2" "Action Figure") Catalog.collections
  /\ normalize_name "Action Figure" = ("action " ++ normalize_name "Figure")%string.
Proof.
  split; [vm_compute; reflexivity | split; [simpl; auto | vm_compute; reflexivity]].
Qed.

Lemma main_exit_code_witness :
  exit_status (snd (run env_live [row_A] start)) = 0%Z.
Proof.
  pose proof (main_exit_code store step no_page env_live [row_A] start) as H.
  cbv zeta in H. destruct H as [_ [_ [H _]]].
  unfold run. rewrite (H [RowCreated (JStr "prod-1")] [entry_A]);
    [reflexivity | decide_concrete | decide_concrete | decide_concrete | decide_concrete].
Defined.

(** A dry run of scenario A creates nothing and still exits with 0. *)
Lemma dry_run_exits_zero :
  snd (run_rows store step no_page "key" "site" true (read_rows [row_A]) start)
  = Ok ([RowDryRun], [])
  /\ exit_status (snd (run env_dry [row_A] start)) = 0%Z.
Proof. split; vm_compute; reflexivity. Qed.

(** A dry run of scenario A sends only product queries and exits with 0. *)
Lemma dry_run_read_only_witness :
  (exists l, w_sent store (fst (run env_dry [row_A] start)) = w_sent store start ++ l
             /\ Forall (fun q => rq_endpoint q = EP_products_query) l)
  /\ exit_status (snd (run env_dry [row_A] start)) = 0%Z.
Proof.
  pose proof (dry_run_read_only store step no_page env_dry [row_A] start) as H.
  cbv zeta in H. unfold run.
  destruct H as [[l [Hl [Fl _]]] [_ [_ [_ H0]]]]; [decide_concrete |].
  split; [exists l; split; assumption |].
  apply H0; [decide_concrete | decide_concrete | right; decide_concrete |].
  apply Forall_forall. intros nr Hin. vm_compute in Hin.
  destruct Hin as [<- | []]. exists None. vm_compute. reflexivity.
Defined.

(** [DRY_RUN=1] without an API key exits with 1. *)
Lemma dry_run_without_key :
  exit_status (snd (run env_dry_nokey [row_A] start)) = 1%Z.
Proof. vm_compute. reflexivity. Qed.

(* ================================================================== *)
(** ** Further properties of the script *)

(** *** Strings *)

Lemma L_rev_str (s : string) :
  list_ascii_of_string (PyStr.rev_str s) = rev (list_ascii_of_string s).
Proof. unfold PyStr.rev_str. apply list_ascii_of_string_of_list_ascii. Qed.

Lemma rev_str_involutive (s : string) : PyStr.rev_str (PyStr.rev_str s) = s.
Proof.
  unfold PyStr.rev_str at 1. rewrite L_rev_str, rev_involutive.
  apply string_of_list_ascii_of_string.
Qed.

Lemma lstrip_suffix (s : string) :
  exists p, list_ascii_of_string s = p ++ list_ascii_of_string (PyStr.lstrip s).
Proof.
  induction s as [| c t IH]; simpl; [exists []; reflexivity |].
  destruct (PyStr.is_space c).
  - destruct IH as [p Hp]. exists (c :: p). simpl. now rewrite Hp.
  - exists []. reflexivity.
Qed.

Lemma lstrip_head (s : string) :
  forall c t, PyStr.lstrip s = String c t -> PyStr.is_space c = false.
Proof.
  induction s as [| c0 s IH]; simpl; intros c t H; [discriminate |].
  destruct (PyStr.is_space c0) eqn:E; [eauto |].
  injection H as -> ->. exact E.
Qed.

Lemma lstrip_noop (s : string) :
  (forall c t, s = String c t -> PyStr.is_space c = false) -> PyStr.lstrip s = s.
Proof. destruct s as [| c t]; simpl; intro H; [reflexivity |]. now rewrite (H c t eq_refl). Qed.

Lemma lstrip_char_suffix (ch : ascii) (s : string) :
  exists p, list_ascii_of_string s = p ++ list_ascii_of_string (PyStr.lstrip_char ch s).
Proof.
  induction s as [| c t IH]; simpl; [exists []; reflexivity |].
  destruct (Ascii.eqb c ch).
  - destruct IH as [p Hp]. exists (c :: p). simpl. now rewrite Hp.
  - exists []. reflexivity.
Qed.

Lemma lstrip_char_head (ch : ascii) (s : string) :
  forall c t, PyStr.lstrip_char ch s = String c t -> Ascii.eqb c ch = false.
Proof.
  induction s as [| c0 s IH]; simpl; intros c t H; [discriminate |].
  destruct (Ascii.eqb c0 ch) eqn:E; [eauto |].
  injection H as -> ->. exact E.
Qed.

(** Stripping the end keeps a prefix of the text. *)
Lemma rstrip_prefix (f : string -> string)
    (Hf : forall s, exists p, list_ascii_of_string s = p ++ list_ascii_of_string (f s))
    (s : string) :
  exists q, list_ascii_of_string s
            = list_ascii_of_string (PyStr.rev_str (f (PyStr.rev_str s))) ++ q.
Proof.
  destruct (Hf (PyStr.rev_str s)) as [p Hp]. rewrite L_rev_str in Hp.
  exists (rev p). rewrite L_rev_str.
  rewrite <- (rev_involutive (list_ascii_of_string s)), Hp, rev_app_distr. reflexivity.
Qed.

Lemma head_of_prefix (s r : string) (q : list ascii) c t :
  list_ascii_of_string s = list_ascii_of_string r ++ q -> r = String c t ->
  exists t', s = String c t'.
Proof.
  intros H ->. destruct s as [| c' s']; simpl in H; [discriminate |].
  injection H as -> _. eauto.
Qed.

(** [s.strip()] is idempotent. *)
Lemma strip_idempotent (s : string) : PyStr.strip (PyStr.strip s) = PyStr.strip s.
Proof.
  unfold PyStr.strip at 2 3.
  set (u := PyStr.lstrip s). set (r := PyStr.rev_str (PyStr.lstrip (PyStr.rev_str u))).
  unfold PyStr.strip.
  assert (Hr : PyStr.lstrip r = r).
  { apply lstrip_noop. intros c t Ht.
    destruct (rstrip_prefix PyStr.lstrip lstrip_suffix u) as [q Hq].
    destruct (head_of_prefix u r q c t Hq Ht) as [t' Hu].
    exact (lstrip_head s c t' Hu). }
  rewrite Hr. unfold r at 1. rewrite rev_str_involutive.
  rewrite (lstrip_noop (PyStr.lstrip (PyStr.rev_str u))); [reflexivity |].
  intros c t Ht. exact (lstrip_head _ c t Ht).
Qed.

Lemma str_all_list (p : ascii -> bool) (s : string) :
  str_all p s = forallb p (list_ascii_of_string s).
Proof. induction s as [| c t IH]; simpl; [reflexivity | now rewrite IH]. Qed.

Lemma str_all_rev_str (p : ascii -> bool) (s : string) :
  str_all p (PyStr.rev_str s) = str_all p s.
Proof.
  rewrite !str_all_list, L_rev_str. induction (list_ascii_of_string s) as [| c t IH];
    simpl; [reflexivity |].
  rewrite forallb_app, IH. simpl. now rewrite andb_true_r, andb_comm.
Qed.

Lemma str_all_lstrip_char (p : ascii -> bool) (ch : ascii) (s : string) :
  str_all p s = true -> str_all p (PyStr.lstrip_char ch s) = true.
Proof.
  rewrite !str_all_list. destruct (lstrip_char_suffix ch s) as [q Hq]. rewrite Hq.
  rewrite forallb_app. now intros [_ H]%andb_prop.
Qed.

Lemma str_all_strip_char (p : ascii -> bool) (ch : ascii) (s : string) :
  str_all p s = true -> str_all p (PyStr.strip_char ch s) = true.
Proof.
  intro H. unfold PyStr.strip_char. rewrite str_all_rev_str.
  apply str_all_lstrip_char. rewrite str_all_rev_str. now apply str_all_lstrip_char.
Qed.

Lemma str_all_map_str (p q : ascii -> bool) (f : ascii -> ascii)
    (Hf : forall c, p c = true -> q (f c) = true) (s : string) :
  str_all p s = true -> str_all q (PyStr.map_str f s) = true.
Proof.
  induction s as [| c t IH]; simpl; [reflexivity |].
  intros [H1 H2]%andb_prop. now rewrite Hf, IH.
Qed.

Lemma str_all_take (p : ascii -> bool) (n : nat) (s : string) :
  str_all p s = true -> str_all p (PyStr.take n s) = true.
Proof.
  unfold PyStr.take. revert s. induction n as [| n IH]; intros [| c t]; simpl; auto.
  intros [H1 H2]%andb_prop. now rewrite H1, IH.
Qed.

Lemma length_take (n : nat) (s : string) : (String.length (PyStr.take n s) <= n)%nat.
Proof.
  unfold PyStr.take. revert s. induction n as [| n IH]; intros [| c t]; simpl; try lia.
  specialize (IH t). lia.
Qed.

Lemma dash_runs_chars (b : bool) (s : string) :
  str_all (fun c => PyStr.is_alnum c || Ascii.eqb c "-"%char) (PyStr.dash_runs_aux b s) = true.
Proof.
  revert b. induction s as [| c t IH]; intro b; simpl; [reflexivity |].
  destruct (PyStr.is_alnum c) eqn:E; simpl.
  - now rewrite E, IH.
  - destruct b; [apply IH |]. simpl. apply IH.
Qed.

Lemma lower_char_slug (c : ascii) :
  implb (PyStr.is_alnum c || Ascii.eqb c "-"%char) (slug_char (PyStr.lower_char c)) = true.
Proof. destruct c as [[] [] [] [] [] [] [] []]; reflexivity. Qed.

Lemma lower_char_dash (c : ascii) :
  Ascii.eqb (PyStr.lower_char c) "-"%char = Ascii.eqb c "-"%char.
Proof. destruct c as [[] [] [] [] [] [] [] []]; reflexivity. Qed.

(** [slugify] always returns a usable URL slug: it is never empty, has at
    most 80 characters, uses only lower-case ASCII letters, digits and
    [-], and never starts with [-]. *)
Theorem slugify_shape (s : string) :
  slugify s <> ""%string
  /\ (String.length (slugify s) <= 80)%nat
  /\ str_all slug_char (slugify s) = true
  /\ (forall t, slugify s <> String "-" t).
Proof.
  unfold slugify.
  set (y := PyStr.strip_char "-" (PyStr.dash_runs s)).
  set (t := PyStr.take 80 (PyStr.lower y)).
  assert (Hall : str_all slug_char t = true).
  { apply str_all_take. unfold PyStr.lower.
    apply (str_all_map_str (fun c => PyStr.is_alnum c || Ascii.eqb c "-"%char)).
    - intros c Hc. pose proof (lower_char_slug c) as H. rewrite Hc in H. exact H.
    - apply str_all_strip_char. apply dash_runs_chars. }
  assert (Hhead : forall t', t <> String "-" t').
  { intros t' Ht. unfold t, PyStr.take, PyStr.lower in Ht.
    destruct y as [| d y'] eqn:Ey; [discriminate |]. simpl in Ht.
    injection Ht as Hd _.
    unfold y, PyStr.strip_char in Ey.
    destruct (rstrip_prefix (PyStr.lstrip_char "-") (lstrip_char_suffix "-")
                (PyStr.lstrip_char "-" (PyStr.dash_runs s))) as [q Hq].
    destruct (head_of_prefix _ _ q d y' Hq Ey) as [t'' Hz].
    pose proof (lstrip_char_head _ _ d t'' Hz) as Hn.
    rewrite <- lower_char_dash, Hd in Hn. discriminate Hn. }
  destruct (String.eqb t "") eqn:Et.
  - repeat split; try discriminate. simpl. lia.
  - apply String.eqb_neq in Et. repeat split; auto. apply length_take.
Qed.

(** Every URL that [parse_image_list_field] returns starts with ["http"]
    and carries no surrounding white space. *)
Theorem parse_image_list_field_urls (s : option string) :
  Forall (fun u => PyStr.startswith u "http" = true /\ PyStr.strip u = u)
         (parse_image_list_field s).
Proof.
  destruct s as [s |]; simpl; [| constructor].
  destruct (String.eqb s ""); [constructor |].
  apply Forall_forall. intros u Hu. apply filter_In in Hu as [Hin Hs].
  apply in_map_iff in Hin as [p [<- _]]. split; [exact Hs | apply strip_idempotent].
Qed.

(** *** [prefer_english] *)

Lemma hd_insert_desc {A : Type} (key : A -> nat) (x : A) (l : list A) :
  hd_error (insert_desc key x l)
  = match hd_error l with
    | None => Some x
    | Some h => if (key h <? key x)%nat then Some x else Some h
    end.
Proof. destruct l as [| y t]; simpl; [reflexivity |]. now destruct (key y <? key x)%nat. Qed.

(** The head of the stable decreasing sort is the first element of
    greatest key. *)
Lemma sort_desc_head {A : Type} (key : A -> nat) (l : list A) :
  l <> [] ->
  exists h pre post,
    hd_error (sort_desc key l) = Some h /\ l = pre ++ h :: post
    /\ Forall (fun y => key y < key h)%nat pre /\ Forall (fun y => key y <= key h)%nat l.
Proof.
  induction l as [| x l IH] using rev_ind; intro Hne; [contradiction |].
  unfold sort_desc. rewrite fold_left_app. simpl. fold (sort_desc key l).
  rewrite hd_insert_desc.
  destruct l as [| a l'] eqn:El.
  - simpl. exists x, [], []. repeat split; auto.
  - rewrite <- El in *. destruct (IH ltac:(subst; discriminate)) as [h [pre [post [Hh [Hl [Hp Ha]]]]]].
    rewrite Hh. destruct (key h <? key x)%nat eqn:Ek.
    + apply Nat.ltb_lt in Ek. exists x, l, []. repeat split; auto.
      * eapply Forall_impl; [| exact Ha]. simpl. intros y Hy. lia.
      * apply Forall_app. split; [eapply Forall_impl; [| exact Ha]; simpl; intros; lia |].
        constructor; auto.
    + apply Nat.ltb_ge in Ek. exists h, pre, (post ++ [x]). repeat split; auto.
      * rewrite Hl. now rewrite <- app_assoc.
      * apply Forall_app. split; [exact Ha | constructor; auto].
Qed.

Lemma filter_split {A : Type} (p : A -> bool) (l pre post : list A) (h : A) :
  filter p l = pre ++ h :: post ->
  exists pre' post', l = pre' ++ h :: post' /\ filter p pre' = pre.
Proof.
  revert pre. induction l as [| a l IH]; intros pre H; simpl in H.
  - destruct pre; discriminate.
  - destruct (p a) eqn:Ep.
    + destruct pre as [| b pre].
      * injection H as -> _. exists [], l. auto.
      * injection H as -> H. destruct (IH pre H) as [pre' [post' [-> Hf]]].
        exists (b :: pre'), post'. simpl. now rewrite Ep, Hf.
    + destruct (IH pre H) as [pre' [post' [-> Hf]]].
      exists (a :: pre'), post'. simpl. now rewrite Ep, Hf.
Qed.

(** [prefer_english] returns [None] exactly when no text has more than 60
    characters once stripped. *)
Theorem prefer_english_none (texts : list string) :
  prefer_english texts = None <-> Forall (fun t => long_text t = false) texts.
Proof.
  unfold prefer_english. rewrite Forall_forall. split.
  - intros H t Ht. destruct (long_text t) eqn:El; [| reflexivity]. exfalso.
    assert (Hin : In t (filter long_text texts)) by (apply filter_In; auto).
    destruct (filter long_text texts) as [| a l] eqn:Ef; [contradiction |].
    destruct (sort_desc_head english_score (a :: l) ltac:(discriminate))
      as [h [_ [_ [Hh _]]]]. congruence.
  - intro H. destruct (filter long_text texts) as [| a l] eqn:Ef; [reflexivity |].
    exfalso. assert (Ha : In a (filter long_text texts)) by (rewrite Ef; left; auto).
    apply filter_In in Ha as [Hin Hl]. rewrite (H a Hin) in Hl. discriminate.
Qed.

(** The text [prefer_english] returns is one of the long texts of its
    input, of greatest score among them, and the first such in the
    input: every long text before it scores strictly less. *)
Theorem prefer_english_choice (texts : list string) (t : string) :
  prefer_english texts = Some t ->
  In t texts /\ long_text t = true
  /\ (forall t', In t' texts -> long_text t' = true -> english_score t' <= english_score t)%nat
  /\ exists pre post, texts = pre ++ t :: post
       /\ forall t', In t' pre -> long_text t' = true -> (english_score t' < english_score t)%nat.
Proof.
  unfold prefer_english. intro H.
  destruct (filter long_text texts) as [| a l] eqn:Ef; [discriminate |].
  destruct (sort_desc_head english_score (a :: l) ltac:(discriminate))
    as [h [pre [post [Hh [Hl [Hp Ha]]]]]].
  rewrite Hh in H. injection H as ->.
  assert (Hin : In t (filter long_text texts)) by (rewrite Ef, Hl; apply in_elt).
  apply filter_In in Hin as [Hin Hlong].
  split; [exact Hin | split; [exact Hlong | split]].
  - intros t' Ht' Hl'. rewrite Forall_forall in Ha. apply Ha.
    rewrite <- Ef. apply filter_In. auto.
  - rewrite Hl in Ef. destruct (filter_split _ _ _ _ _ Ef) as [pre' [post' [Ht Hf]]].
    exists pre', post'. split; [exact Ht |].
    intros t' Ht' Hl'. rewrite Forall_forall in Hp. apply Hp.
    rewrite <- Hf. apply filter_In. auto.
Qed.

(** *** Requests of the helpers *)

Section Requests.
Variable RS : Type.
Variable remote : RS -> http_request -> RS * http_response.

Lemma silent_sent {A} (c : M RS A) (w : world RS) :
  appends_only (fun _ => False) c -> w_sent RS (fst (c w)) = w_sent RS w.
Proof.
  intro H. destruct (H w) as [l [Hl F]]. destruct l as [| q l].
  - now rewrite app_nil_r in Hl.
  - inversion F. contradiction.
Qed.

(** [try: res = wix_request(...); ... except ...] where neither the rest
    of the block nor the handler sends a request: exactly one request. *)
Lemma try_wix_one {A} method ep api_key site_id payload
    (k : json -> M RS A) (h : py_exc -> M RS A) (w : world RS) :
  (forall j, appends_only (fun _ => False) (k j)) ->
  (forall e, appends_only (fun _ => False) (h e)) ->
  exists q,
    w_sent RS (fst (try_except (bind (wix_request RS remote method ep api_key site_id payload) k)
                               h w)) = w_sent RS w ++ [q]
    /\ rq_endpoint q = ep /\ rq_method q = method /\ rq_body q = option_map prune payload.
Proof.
  intros Hk Hh.
  destruct (wix_request_sent RS remote method ep api_key site_id payload w) as [q [Hs Hq]].
  exists q. split; [| exact Hq].
  unfold try_except, bind.
  destruct (wix_request RS remote method ep api_key site_id payload w) as [w1 r] eqn:E.
  simpl in Hs. destruct r as [j | e].
  - pose proof (silent_sent (k j) w1 (Hk j)) as S1.
    destruct (k j w1) as [w2 [a | e]]; simpl in *; [congruence |].
    destruct (is_Exception e); simpl; [| congruence].
    pose proof (silent_sent (h e) w2 (Hh e)). congruence.
  - destruct (is_Exception e); simpl; [| congruence].
    pose proof (silent_sent (h e) w1 (Hh e)). congruence.
Qed.

Lemma try_ret_ok {A} (c : M RS A) (d : A) (w : world RS) :
  never_exits c -> exists a, snd (try_except c (fun _ => ret d) w) = Ok a.
Proof.
  intro Hc. specialize (Hc w). unfold try_except.
  destruct (c w) as [w1 [a | e]]; simpl in *; [eauto |].
  destruct e; simpl; eauto. exfalso. now apply (Hc code).
Qed.

Lemma list_collections_one api_key site_id (w : world RS) :
  exists q v,
    w_sent RS (fst (list_collections RS remote api_key site_id w)) = w_sent RS w ++ [q]
    /\ rq_endpoint q = EP_collections_query /\ rq_method q = "POST"%string
    /\ rq_body q = Some paging_query
    /\ snd (list_collections RS remote api_key site_id w) = Ok v.
Proof.
  unfold list_collections.
  destruct (try_wix_one "POST" EP_collections_query api_key site_id (Some paging_query)
    (fun res => c <- lift (dict_get res "collections") ;;
                if truthy c then ret c
                else i <- lift (dict_get res "items") ;; ret (json_or i (JArr [])))
    (fun _ => ret (JArr [])) w) as [q [Hs [He [Hm Hb]]]].
  { intro. effects. }
  { intro. effects. }
  destruct (try_ret_ok
    (res <- wix_request RS remote "POST" EP_collections_query api_key site_id
                        (Some paging_query) ;;
     c <- lift (dict_get res "collections") ;;
     if truthy c then ret c
     else i <- lift (dict_get res "items") ;; ret (json_or i (JArr []))) (JArr []) w)
    as [v Hv]; [effects |].
  exists q, v. repeat split; auto; rewrite Hb; reflexivity.
Qed.

Lemma list_categories_one api_key site_id (w : world RS) :
  exists q v,
    w_sent RS (fst (list_categories RS remote api_key site_id w)) = w_sent RS w ++ [q]
    /\ rq_endpoint q = EP_categories_query /\ rq_method q = "POST"%string
    /\ rq_body q = Some paging_query
    /\ snd (list_categories RS remote api_key site_id w) = Ok v.
Proof.
  unfold list_categories.
  destruct (try_wix_one "POST" EP_categories_query api_key site_id (Some paging_query)
    (fun res => c <- lift (dict_get res "categories") ;;
                if truthy c then ret c
                else i <- lift (dict_get res "items") ;; ret (json_or i (JArr [])))
    (fun _ => ret (JArr [])) w) as [q [Hs [He [Hm Hb]]]].
  { intro. effects. }
  { intro. effects. }
  destruct (try_ret_ok
    (res <- wix_request RS remote "POST" EP_categories_query api_key site_id
                        (Some paging_query) ;;
     c <- lift (dict_get res "categories") ;;
     if truthy c then ret c
     else i <- lift (dict_get res "items") ;; ret (json_or i (JArr []))) (JArr []) w)
    as [v Hv]; [effects |].
  exists q, v. repeat split; auto; rewrite Hb; reflexivity.
Qed.

Lemma precheck_one_request api_key site_id (w : world RS) :
  exists q b,
    w_sent RS (fst (precheck RS remote api_key site_id w)) = w_sent RS w ++ [q]
    /\ rq_method q = "POST"%string /\ rq_endpoint q = EP_products_query
    /\ rq_body q = Some (JObj [])
    /\ snd (precheck RS remote api_key site_id w) = Ok b.
Proof.
  destruct (precheck_ok RS remote api_key site_id w) as [b Hb].
  unfold precheck in *.
  destruct (try_wix_one "POST" EP_products_query api_key site_id
    (Some (JObj [("query"%string, JObj [])]))
    (fun res => p <- lift (dict_get res "products") ;;
                items <- (if truthy p then ret p
                          else i <- lift (dict_get res "items") ;; ret (json_or i (JArr []))) ;;
                _ <- lift (py_len items) ;;
                ret true)
    (fun _ => ret false) w) as [q [Hs [He [Hm Hq]]]].
  { intro. effects. }
  { intro. effects. }
  exists q, b. repeat split; auto; rewrite Hq; reflexivity.
Qed.

(** [precheck] never raises and sends exactly one request: a POST to the
    products query endpoint whose body is [{}], since [prune] drops the
    empty ["query"] object of its payload. *)
Theorem precheck_single_request api_key site_id (w : world RS) :
  exists q b,
    w_sent RS (fst (precheck RS remote api_key site_id w)) = w_sent RS w ++ [q]
    /\ rq_method q = "POST"%string /\ rq_endpoint q = EP_products_query
    /\ rq_body q = Some (JObj [])
    /\ snd (precheck RS remote api_key site_id w) = Ok b.
Proof. apply precheck_one_request. Qed.

(** [find_category_or_collection_id] with an empty name returns [None]
    and sends nothing; with any other name it sends exactly two requests,
    the collections query and then the categories query, each a POST with
    the paging body, and nothing that writes. *)
Theorem find_category_requests api_key site_id (name : string) (w : world RS) :
  (name = ""%string ->
   find_category_or_collection_id RS remote api_key site_id name w = (w, Ok JNull))
  /\ (name <> ""%string ->
      exists q1 q2,
        w_sent RS (fst (find_category_or_collection_id RS remote api_key site_id name w))
        = w_sent RS w ++ [q1; q2]
        /\ rq_endpoint q1 = EP_collections_query /\ rq_endpoint q2 = EP_categories_query
        /\ rq_method q1 = "POST"%string /\ rq_method q2 = "POST"%string
        /\ rq_body q1 = Some paging_query /\ rq_body q2 = Some paging_query).
Proof.
  split; intro Hn.
  - subst name. reflexivity.
  - unfold find_category_or_collection_id.
    apply String.eqb_neq in Hn. rewrite Hn. cbv zeta. unfold bind at 1.
    destruct (list_collections_one api_key site_id w) as [q1 [v1 [S1 [E1 [M1 [B1 R1]]]]]].
    destruct (list_collections RS remote api_key site_id w) as [w1 r1]. simpl in S1, R1.
    subst r1. unfold bind at 1.
    destruct (list_categories_one api_key site_id w1) as [q2 [v2 [S2 [E2 [M2 [B2 R2]]]]]].
    destruct (list_categories RS remote api_key site_id w1) as [w2 r2]. simpl in S2, R2.
    subst r2. exists q1, q2. split; [| repeat split; auto].
    match goal with |- w_sent _ (fst (?c w2)) = _ => rewrite (silent_sent c w2) end.
    + rewrite S2, S1. now rewrite <- app_assoc.
    + effects.
Qed.

Lemma forall_firstn {A} (P : A -> Prop) (n : nat) (l : list A) :
  Forall P l -> Forall P (firstn n l).
Proof.
  revert l. induction n as [| n IH]; intros [| a l] H; simpl; auto.
  inversion H; subst. constructor; auto.
Qed.

Lemma clean_media (l : list string) :
  l <> [] -> Forall (fun u => u <> ""%string) l ->
  clean (JObj [("mediaItems"%string, JArr (map (fun u => JObj [("src"%string, JStr u)]) l))])
  = true.
Proof.
  intros Hne Hl. destruct l as [| u0 l]; [contradiction |].
  cbn [clean forallb map is_empty_value negb andb]. rewrite andb_true_r.
  inversion Hl as [| ? ? H0 Hus]; subst.
  destruct u0 as [| c0 u0']; [contradiction |]. simpl.
  clear - Hus. induction Hus as [| u l Hu _ IH]; [reflexivity |].
  simpl. rewrite IH. destruct u; [contradiction | reflexivity].
Qed.

(** [add_media_v1] never raises.  It keeps the URLs that start with
    ["http"]; when there are none it sends nothing, otherwise it sends one
    POST to the product's media endpoint listing the first 20 of them, in
    order, unchanged by [prune]. *)
Theorem add_media_v1_request api_key site_id (pid : json) (urls : list string)
    (w : world RS) :
  let hs := filter (fun u => PyStr.startswith u "http") urls in
  snd (add_media_v1 RS remote api_key site_id pid urls w) = Ok tt
  /\ (hs = [] -> fst (add_media_v1 RS remote api_key site_id pid urls w) = w)
  /\ (hs <> [] ->
      exists q,
        w_sent RS (fst (add_media_v1 RS remote api_key site_id pid urls w)) = w_sent RS w ++ [q]
        /\ rq_method q = "POST"%string /\ rq_endpoint q = EP_product_media pid
        /\ rq_body q = Some (JObj [("mediaItems"%string,
                                     JArr (map (fun u => JObj [("src"%string, JStr u)])
                                               (firstn 20 hs)))])).
Proof.
  intro hs. unfold add_media_v1. fold hs.
  assert (Hh : Forall (fun u => PyStr.startswith u "http" = true) hs).
  { apply Forall_forall. intros u Hu. now apply filter_In in Hu. }
  destruct hs as [| u0 us] eqn:Ehs.
  - repeat split; auto. congruence.
  - assert (Hnx : never_exits
      (_ <- wix_request RS remote "POST" (EP_product_media pid) api_key site_id
              (Some (JObj [("mediaItems"%string,
                            JArr (map (fun u => JObj [("src"%string, JStr u)])
                                      (firstn 20 (u0 :: us))))])) ;; ret tt)) by effects.
    split; [apply try_pass_ok; exact Hnx |]. split; [congruence |]. intros _.
    destruct (try_wix_one "POST" (EP_product_media pid) api_key site_id
      (Some (JObj [("mediaItems"%string,
                    JArr (map (fun u => JObj [("src"%string, JStr u)])
                              (firstn 20 (u0 :: us))))]))
      (fun _ => ret tt) (fun _ => ret tt) w) as [q [Hs [He [Hm Hb]]]].
    { intro. effects. }
    { intro. effects. }
    exists q. repeat split; auto. rewrite Hb. cbn [option_map]. f_equal.
    apply prune_clean_id, clean_media; [discriminate |].
    apply forall_firstn.
    eapply Forall_impl; [| exact Hh]. intros u Hu ->. discriminate Hu.
Qed.

(** [add_product_to_collection] never raises; it sends nothing unless
    both the collection id and the product id are truthy, and then one
    POST to the collection's [productIds] endpoint listing the product. *)
Theorem add_product_to_collection_request api_key site_id (cid pid : json)
    (w : world RS) :
  ((truthy cid = false \/ truthy pid = false) ->
   add_product_to_collection RS remote api_key site_id cid pid w = (w, Ok tt))
  /\ (truthy cid = true -> truthy pid = true ->
      exists q,
        w_sent RS (fst (add_product_to_collection RS remote api_key site_id cid pid w))
        = w_sent RS w ++ [q]
        /\ rq_method q = "POST"%string /\ rq_endpoint q = EP_collection_productIds cid
        /\ rq_body q = Some (prune (JObj [("productIds"%string, JArr [pid])]))
        /\ snd (add_product_to_collection RS remote api_key site_id cid pid w) = Ok tt).
Proof.
  unfold add_product_to_collection. split.
  - intros [H | H]; rewrite H; [reflexivity |]. now rewrite orb_true_r.
  - intros H1 H2. rewrite H1, H2. simpl.
    destruct (try_wix_one "POST" (EP_collection_productIds cid) api_key site_id
      (Some (JObj [("productIds"%string, JArr [pid])]))
      (fun _ => ret tt) (fun _ => ret tt) w) as [q [Hs [He [Hm Hb]]]].
    { intro. effects. }
    { intro. effects. }
    exists q. repeat split; auto. apply try_pass_ok. effects.
Qed.

(** An answer with status 300 or more makes [wix_request] raise a
    [RuntimeError] that carries the method, the endpoint, the status and
    at most the first 1200 characters of the response text; the request
    is recorded as sent. *)
Theorem wix_request_error method ep api_key site_id payload (w : world RS)
    rs' (status : Z) (text : string) parsed :
  remote (w_remote RS w)
    {| rq_method := method; rq_endpoint := ep; rq_api_key := api_key;
       rq_site_id := site_id; rq_body := option_map prune payload |}
  = (rs', Response status text parsed) ->
  (300 <= status)%Z ->
  exists t,
    wix_request RS remote method ep api_key site_id payload w
    = ({| w_remote := rs';
          w_sent := w_sent RS w ++
                    [{| rq_method := method; rq_endpoint := ep; rq_api_key := api_key;
                        rq_site_id := site_id; rq_body := option_map prune payload |}] |},
       Raise (RuntimeError method ep status t))
    /\ (String.length t <= 1200)%nat
    /\ String.prefix t text = true.
Proof.
  intros Hr Hs. unfold wix_request. rewrite Hr.
  apply Z.leb_le in Hs. rewrite Hs.
  exists (PyStr.take 1200 text). split; [reflexivity | split; [apply length_take |]].
  unfold PyStr.take. generalize 1200%nat. clear.
  induction text as [| c t IH]; intros [| n]; simpl; auto.
  destruct (ascii_dec c c); [apply IH | contradiction].
Qed.

End Requests.

(** *** Reading the CSV *)

Lemma read_rows_from_in (i : Z) (raws : list raw_row) (n : Z) (r : row) :
  In (n, r) (read_rows_from i raws)
  <-> exists k raw, nth_error raws k = Some raw /\ n = (i + Z.of_nat k)%Z /\ r = norm_row raw
      /\ (opt_str_truthy (rget r "nome_articolo") || opt_str_truthy (rget r "prezzo_eur")
          || opt_str_truthy (rget r "url_produttore")) = true.
Proof.
  revert i. induction raws as [| raw t IH]; intro i; simpl.
  - split; [contradiction |]. intros [k [raw [H _]]]. destruct k; discriminate.
  - destruct (opt_str_truthy (rget (norm_row raw) "nome_articolo")
              || opt_str_truthy (rget (norm_row raw) "prezzo_eur")
              || opt_str_truthy (rget (norm_row raw) "url_produttore")) eqn:Ek; simpl.
    + split.
      * intros [H | H].
        -- injection H as <- <-. exists 0%nat, raw. repeat split; auto. lia.
        -- apply IH in H as [k [raw' [Hk [Hn [Hr Hkeep]]]]].
           exists (S k), raw'. repeat split; auto. lia.
      * intros [[| k] [raw' [Hk [Hn [Hr Hkeep]]]]]; simpl in Hk.
        -- injection Hk as <-. left. f_equal; [f_equal; lia | auto].
        -- right. apply IH. exists k, raw'. repeat split; auto. lia.
    + rewrite IH. split.
      * intros [k [raw' [Hk [Hn [Hr Hkeep]]]]]. exists (S k), raw'. repeat split; auto. lia.
      * intros [[| k] [raw' [Hk [Hn [Hr Hkeep]]]]]; simpl in Hk.
        -- injection Hk as <-. subst r. congruence.
        -- exists k, raw'. repeat split; auto. lia.
Qed.

Lemma read_rows_from_bound (i : Z) (raws : list raw_row) :
  Forall (fun p => (i <= fst p)%Z) (read_rows_from i raws).
Proof.
  revert i. induction raws as [| raw t IH]; intro i; simpl; [constructor |].
  assert (H : Forall (fun p => (i <= fst p)%Z) (read_rows_from (i + 1) t)).
  { eapply Forall_impl; [| apply IH]. simpl. intros; lia. }
  destruct (_ || _ || _); [constructor; [simpl; lia | exact H] | exact H].
Qed.

Lemma read_rows_from_increasing (i : Z) (raws : list raw_row) (j1 j2 : nat) p1 p2 :
  nth_error (read_rows_from i raws) j1 = Some p1 ->
  nth_error (read_rows_from i raws) j2 = Some p2 -> (j1 < j2)%nat -> (fst p1 < fst p2)%Z.
Proof.
  revert i j1 j2. induction raws as [| raw t IH]; intros i j1 j2 H1 H2 Hj; simpl in *.
  - destruct j1; discriminate.
  - destruct (_ || _ || _).
    + destruct j1 as [| j1], j2 as [| j2]; simpl in *; try lia.
      * injection H1 as <-. simpl.
        pose proof (read_rows_from_bound (i + 1) t) as B.
        apply nth_error_In in H2. rewrite Forall_forall in B. specialize (B _ H2). lia.
      * eapply IH; eauto. lia.
    + eapply IH; eauto.
Qed.

(** [read_rows] numbers each kept row with its position among the CSV
    records plus 2 (the header is line 1), also when earlier rows were
    dropped; a record is kept exactly when its normalised row has a
    non-empty [nome_articolo], [prezzo_eur] or [url_produttore]; the
    numbers strictly increase along the output. *)
Theorem read_rows_numbering (raws : list raw_row) :
  (forall n r, In (n, r) (read_rows raws)
     <-> exists k raw, nth_error raws k = Some raw /\ n = (Z.of_nat k + 2)%Z
         /\ r = norm_row raw
         /\ (opt_str_truthy (rget r "nome_articolo") || opt_str_truthy (rget r "prezzo_eur")
             || opt_str_truthy (rget r "url_produttore")) = true)
  /\ (forall j1 j2 p1 p2,
        nth_error (read_rows raws) j1 = Some p1 -> nth_error (read_rows raws) j2 = Some p2 ->
        (j1 < j2)%nat -> (fst p1 < fst p2)%Z).
Proof.
  split.
  - intros n r. unfold read_rows. rewrite read_rows_from_in.
    split; intros [k [raw [H1 [H2 H3]]]]; exists k, raw; split; auto; split; auto; lia.
  - apply read_rows_from_increasing.
Qed.

Lemma dict_set_lookup (d : row) (k v k' : string) :
  rget (dict_set d k v) k' = if String.eqb k' k then Some v else rget d k'.
Proof.
  unfold rget. induction d as [| [k0 v0] t IH]; simpl; [reflexivity |].
  destruct (String.eqb_spec k k0) as [-> | Hne]; simpl.
  - destruct (String.eqb k' k0); reflexivity.
  - rewrite IH. destruct (String.eqb_spec k' k0) as [-> | Hne']; simpl.
    + apply not_eq_sym, String.eqb_neq in Hne. now rewrite Hne.
    + reflexivity.
Qed.

(** How one more column changes the normalised row: a column without a
    header or whose header starts with ["__"] changes nothing; any other
    column sets the key [header.strip().lower()] to the stripped value,
    overwriting an earlier column with the same key, and leaves the other
    keys as they were. *)
Theorem norm_row_column (raw : raw_row) (k0 : option string) (v : option string) :
  (k0 = None -> norm_row (raw ++ [(k0, v)]) = norm_row raw)
  /\ (forall k, k0 = Some k -> PyStr.startswith k "__" = true ->
        norm_row (raw ++ [(k0, v)]) = norm_row raw)
  /\ (forall k, k0 = Some k -> PyStr.startswith k "__" = false ->
        let key := PyStr.lower (PyStr.strip k) in
        rget (norm_row (raw ++ [(k0, v)])) key
        = Some (PyStr.strip (match v with Some s => s | None => ""%string end))
        /\ forall k', k' <> key -> rget (norm_row (raw ++ [(k0, v)])) k' = rget (norm_row raw) k').
Proof.
  unfold norm_row. rewrite fold_left_app. simpl. fold (norm_row raw).
  split; [intros ->; reflexivity |]. split.
  - intros k -> H. now rewrite H.
  - intros k -> H. cbv zeta. rewrite H. split.
    + rewrite dict_set_lookup. now rewrite String.eqb_refl.
    + intros k' Hk'. rewrite dict_set_lookup. apply String.eqb_neq in Hk'. now rewrite Hk'.
Qed.

(** *** The payload *)

Lemma assoc_none_notin {V : Type} (k : string) (l : list (string * V)) :
  ~ In k (map fst l) -> assoc k l = None.
Proof.
  induction l as [| [k' v] t IH]; simpl; [reflexivity |]. intro H.
  destruct (String.eqb_spec k k') as [-> | Hne]; [exfalso; auto |]. apply IH. tauto.
Qed.

(** A key of a dict with distinct keys, after [prune]: its pruned value,
    or no entry when that value is empty. *)
Lemma assoc_prune (k : string) (kv : list (string * json)) :
  NoDup (map fst kv) ->
  assoc k (filter (fun kv => negb (is_empty_value (snd kv)))
                  (map (fun '(k, v) => (k, prune v)) kv))
  = match assoc k kv with
    | Some v => if is_empty_value (prune v) then None else Some (prune v)
    | None => None
    end.
Proof.
  induction kv as [| [k' v] t IH]; simpl; intro H; [reflexivity |].
  inversion H as [| ? ? Hn Ht]; subst.
  destruct (String.eqb_spec k k') as [-> | Hne].
  - rewrite ?String.eqb_refl. destruct (is_empty_value (prune v)) eqn:E; simpl.
    + rewrite IH by exact Ht. now rewrite (assoc_none_notin k' t Hn).
    + now rewrite ?String.eqb_refl.
  - apply String.eqb_neq in Hne. rewrite ?Hne.
    destruct (is_empty_value (prune v)); simpl; rewrite ?Hne; apply IH; exact Ht.
Qed.

(** Each [{"src": u}] of [u] starting with ["http"] is kept whole by
    [prune]. *)
Lemma clean_media_items (us : list string) :
  Forall (fun u => PyStr.startswith u "http" = true) us ->
  clean (JArr (map (fun u => JObj [("src"%string, JStr u)]) us)) = true.
Proof.
  induction 1 as [| u us Hu _ IH]; [reflexivity |].
  simpl in IH |- *. rewrite IH.
  destruct u as [| c t]; [discriminate Hu | reflexivity].
Qed.

(** The product payload's ["mediaItems"] lists the URLs among the first
    10 images that start with ["http"], in order, each as
    [{"src": url}], at most 10 of them, and is [None] when there are
    none; after [prune] (the body of the create request) those items are
    kept whole, and the key is absent exactly when there are none. *)
Theorem build_product_media name slug visible descr price brand images is_preorder sku peso :
  let us := filter (fun u => PyStr.startswith u "http") (firstn 10 images) in
  (List.length us <= 10)%nat
  /\ dict_get (build_product name slug visible descr price brand images is_preorder sku peso)
              "mediaItems"
     = Ok (match us with
           | [] => JNull
           | _ => JArr (map (fun u => JObj [("src"%string, JStr u)]) us)
           end)
  /\ match prune (build_product name slug visible descr price brand images is_preorder sku peso)
     with
     | JObj kv => assoc "mediaItems" kv
     | _ => None
     end
     = match us with
       | [] => None
       | _ => Some (JArr (map (fun u => JObj [("src"%string, JStr u)]) us))
       end.
Proof.
  intro us.
  assert (Hus : Forall (fun u => PyStr.startswith u "http" = true) us).
  { apply Forall_forall. intros u Hu. now apply filter_In in Hu. }
  split; [| split].
  - etransitivity; [apply filter_length_le |]. rewrite length_firstn. lia.
  - unfold build_product. fold us.
    destruct is_preorder; [destruct (compute_prices price) |]; destruct us; reflexivity.
  - assert (Hclean := clean_media_items us Hus).
    assert (Hkv : exists kv,
      build_product name slug visible descr price brand images is_preorder sku peso = JObj kv
      /\ NoDup (map fst kv)
      /\ assoc "mediaItems" kv
         = Some (match us with
                 | [] => JNull
                 | _ => JArr (map (fun u => JObj [("src"%string, JStr u)]) us)
                 end)).
    { unfold build_product. fold us. clearbody us.
      destruct is_preorder; [destruct (compute_prices price) |]; eexists;
        (split; [reflexivity |]);
        (split; [cbn; repeat (apply NoDup_cons; [cbn; intuition discriminate |]);
                 apply NoDup_nil
                | destruct us; reflexivity]). }
    destruct Hkv as [kv [-> [Hnd Hm]]]. cbn [prune]. rewrite (assoc_prune _ _ Hnd), Hm.
    clearbody us. destruct us as [| u us']; [reflexivity |].
    rewrite (prune_clean_id _ Hclean). reflexivity.
Qed.

(** *** The loop over the rows *)

Section Loop.
Variable RS : Type.
Variable remote : RS -> http_request -> RS * http_response.
Variable fetch_from_page : string -> scraped.
Variables (api_key site_id : string).

(** The entry a row adds to [created] is the one of its [RowCreated]
    outcome, with the row's number. *)
Lemma process_row_entry dry n r w o c :
  snd (process_row RS remote fetch_from_page api_key site_id dry n r w) = Ok (o, c) ->
  match c with Some e => [(ce_row e, ce_id e)] | None => [] end
  = match o with RowCreated pid => [(n, pid)] | _ => [] end.
Proof.
  intro H.
  destruct (url_ok r) eqn:U.
  2:{ rewrite (process_row_bad_url RS remote fetch_from_page api_key site_id n dry r w U) in H.
      now injection H as <- <-. }
  destruct (row_price r) as [price |] eqn:P.
  2:{ rewrite (process_row_bad_price RS remote fetch_from_page api_key site_id n dry r w U P)
        in H. now injection H as <- <-. }
  destruct (to_float_kg_cases (rget r "peso_kg")) as [[v Hv] | Hv].
  2:{ rewrite (process_row_bad_weight RS remote fetch_from_page api_key site_id n dry r price w
                 U P Hv) in H. discriminate. }
  destruct dry.
  - rewrite (process_row_dry RS remote fetch_from_page api_key site_id n r price v w U P Hv)
      in H. now injection H as <- <-.
  - destruct (process_row_live RS remote fetch_from_page api_key site_id n r price v w U P Hv)
      as [q [rest [o' [c' [_ [Hr [_ [_ [_ [_ Hcase]]]]]]]]]].
    rewrite H in Hr. injection Hr as <- <-.
    destruct Hcase as [[e [-> [-> _]]] | [[-> [-> _]] | [pid [-> [_ ->]]]]]; reflexivity.
Qed.

(** The [created] list of a run that completes holds, in row order,
    exactly the rows whose outcome is [RowCreated], each with its row
    number and the product id of that outcome; there is one outcome per
    row. *)
Theorem run_rows_created dry rows w outs created :
  snd (run_rows RS remote fetch_from_page api_key site_id dry rows w) = Ok (outs, created) ->
  List.length outs = List.length rows
  /\ map (fun e => (ce_row e, ce_id e)) created
     = flat_map (fun no => match snd no with RowCreated pid => [(fst no, pid)] | _ => [] end)
                (combine (map fst rows) outs).
Proof.
  revert w outs created. induction rows as [| [n r] rows IH]; intros w outs created H.
  - simpl in H. injection H as <- <-. auto.
  - simpl in H. unfold bind in H.
    pose proof (process_row_entry dry n r w) as Hent.
    destruct (process_row RS remote fetch_from_page api_key site_id dry n r w)
      as [w1 [[o c] | e]]; [| discriminate].
    specialize (Hent o c eq_refl).
    specialize (IH w1).
    destruct (run_rows RS remote fetch_from_page api_key site_id dry rows w1)
      as [w2 [[outs' created'] | e]]; [| discriminate].
    destruct (IH outs' created' eq_refl) as [Hl Hm].
    simpl in H. injection H as <- <-. simpl. split; [now rewrite Hl |].
    rewrite <- Hm. destruct c as [e |]; simpl in *; rewrite <- Hent; reflexivity.
Qed.

Lemma process_row_requests n r w p :
  to_float_kg (rget r "peso_kg") = Ok p ->
  (exists a, snd (process_row RS remote fetch_from_page api_key site_id false n r w) = Ok a)
  /\ exists l,
    w_sent RS (fst (process_row RS remote fetch_from_page api_key site_id false n r w))
    = w_sent RS w ++ l
    /\ row_requests_ok r l.
Proof.
  intro Hv. unfold row_requests_ok.
  destruct (url_ok r) eqn:U.
  2:{ rewrite (process_row_bad_url RS remote fetch_from_page api_key site_id n false r w U).
      split; [eexists; reflexivity |]. exists []. simpl. now rewrite app_nil_r. }
  destruct (row_price r) as [price |] eqn:P.
  2:{ rewrite (process_row_bad_price RS remote fetch_from_page api_key site_id n false r w U P).
      split; [eexists; reflexivity |]. exists []. simpl. now rewrite app_nil_r. }
  destruct (process_row_live RS remote fetch_from_page api_key site_id n r price p w U P Hv)
    as [q [rest [o [c [Hs [Hr [He [Hm [_ [F _]]]]]]]]]].
  split; [eauto |]. exists (q :: rest). split; [exact Hs |]. simpl.
  exists q, rest. auto.
Qed.

(** In a live run whose weights all parse, the requests of the loop are,
    row after row, those of each row: a row whose URL and price pass
    sends exactly one create request, as its first request, and no
    other product request; a row that fails them sends nothing.  So no
    row is created twice and no create is retried. *)
Theorem run_rows_one_create_per_row rows w :
  Forall (fun nr => exists p, to_float_kg (rget (snd nr) "peso_kg") = Ok p) rows ->
  exists ls,
    w_sent RS (fst (run_rows RS remote fetch_from_page api_key site_id false rows w))
    = w_sent RS w ++ concat ls
    /\ Forall2 (fun nr l => row_requests_ok (snd nr) l) rows ls.
Proof.
  revert w. induction rows as [| [n r] rows IH]; intros w HF.
  - exists []. simpl. split; [now rewrite app_nil_r | constructor].
  - inversion HF as [| ? ? [p Hp] HF']; subst. simpl in Hp.
    destruct (process_row_requests n r w p Hp) as [[a Ha] [l1 [H1 C1]]].
    simpl. unfold bind.
    destruct (process_row RS remote fetch_from_page api_key site_id false n r w) as [w1 r1].
    simpl in Ha, H1. subst r1.
    destruct (IH w1 HF') as [ls [H2 C2]].
    destruct (run_rows RS remote fetch_from_page api_key site_id false rows w1) as [w2 r2].
    simpl in H2. exists (l1 :: ls).
    assert (Hsent : w_sent RS w2 = w_sent RS w ++ concat (l1 :: ls))
      by (simpl; rewrite H2, H1; now rewrite app_assoc).
    destruct r2 as [res | e]; simpl; (split; [exact Hsent | constructor; assumption]).
Qed.

End Loop.

(** *** What follows a create *)

Section AfterCreate.
Variable RS : Type.
Variable remote : RS -> http_request -> RS * http_response.
Variable fetch_from_page : string -> scraped.
Variables (api_key site_id : string).

Lemma ao_wix_body (P : http_request -> Prop) method ep payload :
  (forall q, rq_endpoint q = ep -> rq_body q = option_map prune payload -> P q) ->
  appends_only P (wix_request RS remote method ep api_key site_id payload).
Proof.
  intros HP w. destruct (wix_request_sent RS remote method ep api_key site_id payload w)
    as [q [Hs [He [_ Hb]]]].
  exists [q]. split; [exact Hs | constructor; [now apply HP | constructor]].
Qed.

Lemma attach_media_target pid images :
  appends_only (attach_request pid) (attach_media RS remote api_key site_id pid images).
Proof.
  unfold attach_media, add_media_v1. effects. now left.
Qed.

Lemma attach_category_target pid categoria :
  appends_only (attach_request pid) (attach_category RS remote api_key site_id pid categoria).
Proof.
  unfold attach_category. apply ao_try; [| intro; effects].
  destruct (String.eqb categoria ""); [effects |].
  apply ao_bind.
  - unfold find_category_or_collection_id, list_collections, list_categories. effects.
    all: unfold attach_request; auto.
  - intro cid. destruct (truthy cid); [| effects].
    unfold add_product_to_collection.
    destruct (negb (truthy cid) || negb (truthy pid)); [effects |].
    apply ao_try; [| intro; effects]. apply ao_bind; [| intro; effects].
    apply ao_wix_body. intros q He Hb. right; right; right. exists cid. auto.
Qed.
(** After a row's create request returned the id [pid], every further
    request of that row concerns [pid]: its media, the catalogue queries
    of the category lookup, or adding [pid] to a collection; no request
    touches another product. *)
Theorem created_row_requests n r w pid c :
  snd (process_row RS remote fetch_from_page api_key site_id false n r w)
  = Ok (RowCreated pid, c) ->
  exists q rest,
    w_sent RS (fst (process_row RS remote fetch_from_page api_key site_id false n r w))
    = w_sent RS w ++ q :: rest
    /\ rq_endpoint q = EP_products /\ rq_method q = "POST"%string
    /\ Forall (attach_request pid) rest.
Proof.
  intro H.
  destruct (url_ok r) eqn:U.
  2:{ rewrite (process_row_bad_url RS remote fetch_from_page api_key site_id n false r w U) in H.
      discriminate. }
  destruct (row_price r) as [price |] eqn:P.
  2:{ rewrite (process_row_bad_price RS remote fetch_from_page api_key site_id n false r w U P)
        in H. discriminate. }
  destruct (to_float_kg_cases (rget r "peso_kg")) as [[v Hv] | Hv].
  2:{ rewrite (process_row_bad_weight RS remote fetch_from_page api_key site_id n false r price w
                 U P Hv) in H. discriminate. }
  revert H. unfold process_row. rewrite U, P.
  cbn -[prepare_row try_create attach_media attach_category]. rewrite Hv.
  cbn -[prepare_row try_create attach_media attach_category].
  set (pr := prepare_row r price v (fetch_from_page (py_str_opt (row_url r)))).
  unfold bind.
  destruct (try_create_spec RS remote api_key site_id (prep_product pr) w)
    as [q [res [Hs [He [HM [_ Hv']]]]]].
  destruct (try_create RS remote api_key site_id (prep_product pr) w) as [w1 r1].
  simpl in Hs, Hv'. subst r1.
  destruct res as [pid' | e]; cbn -[prepare_row attach_media attach_category];
    [| intro Hx; discriminate Hx].
  destruct (truthy pid'); cbn -[prepare_row attach_media attach_category];
    [| intro Hx; discriminate Hx].
  unfold bind.
  pose proof (attach_media_ok RS remote api_key site_id pid' (prep_images pr) w1) as Hm.
  destruct (attach_media_target pid' (prep_images pr) w1) as [l1 [Hl1 F1]].
  destruct (attach_media RS remote api_key site_id pid' (prep_images pr) w1) as [w2 r2].
  simpl in Hm, Hl1. subst r2.
  pose proof (attach_category_ok RS remote api_key site_id pid' (prep_categoria pr) w2) as Hc.
  destruct (attach_category_target pid' (prep_categoria pr) w2)
    as [l2 [Hl2 F2]].
  destruct (attach_category RS remote api_key site_id pid' (prep_categoria pr) w2) as [w3 r3].
  simpl in Hc, Hl2. subst r3. cbn -[prepare_row]. intro Hx. injection Hx as <- _.
  exists q, (l1 ++ l2). split; [| split; [exact He | split; [exact HM |]]].
  - rewrite Hl2, Hl1, Hs. now rewrite <- !app_assoc.
  - now apply Forall_app.
Qed.
End AfterCreate.

Section CreateAnswer.
Variable RS : Type.
Variable remote : RS -> http_request -> RS * http_response.
Variables (api_key site_id : string).

(** The id of a created product is read as
    [res.get("product", {}).get("id")] from a 2xx JSON answer: an answer
    without ["product"] gives [None] (the row is reported without id), a
    ["product"] that is not an object, [null] for instance, or an answer
    that is not an object raises [AttributeError], and the row is
    reported as a create error. *)
Theorem try_create_answer product (w : world RS) rs' (status : Z) (text : string) (j : json) :
  remote (w_remote RS w)
    {| rq_method := "POST"; rq_endpoint := EP_products; rq_api_key := api_key;
       rq_site_id := site_id; rq_body := Some (prune (JObj [("product"%string, product)])) |}
  = (rs', Response status text (Some j)) ->
  (status < 300)%Z -> PyStr.strip text <> ""%string ->
  snd (try_create RS remote api_key site_id product w)
  = Ok (match j with
        | JObj kv =>
            match assoc "product" kv with
            | None => inl JNull
            | Some (JObj kv') => inl (match assoc "id" kv' with Some i => i | None => JNull end)
            | Some _ => inr AttributeError
            end
        | _ => inr AttributeError
        end).
Proof.
  intros Hr Hs Ht.
  unfold try_create, create_product_v1, try_except, bind, wix_request. cbn [option_map].
  rewrite Hr. cbn -[PyStr.strip prune].
  assert (Hs' : (300 <=? status)%Z = false) by (apply Z.leb_gt; lia). rewrite Hs'.
  apply String.eqb_neq in Ht. rewrite Ht. cbn -[PyStr.strip prune].
  destruct j as [| | | | | l | kv]; try reflexivity.
  cbn -[PyStr.strip prune].
  destruct (assoc "product" kv) as [p |]; [| reflexivity].
  destruct p; reflexivity.
Qed.

End CreateAnswer.

(** *** Product queries of a run *)

Section Queries.
Variable RS : Type.
Variable remote : RS -> http_request -> RS * http_response.
Variable fetch_from_page : string -> scraped.

Lemma process_row_no_query api_key site_id dry n r :
  appends_only (fun q => rq_endpoint q <> EP_products_query)
    (process_row RS remote fetch_from_page api_key site_id dry n r).
Proof.
  intro w.
  assert (Hsame : forall x : world RS * result (row_outcome * option created_entry),
                   fst x = w -> exists l, w_sent RS (fst x) = w_sent RS w ++ l
                                          /\ Forall (fun q => rq_endpoint q <> EP_products_query) l).
  { intros x Hx. exists []. rewrite Hx, app_nil_r. auto. }
  destruct (url_ok r) eqn:U.
  2:{ apply Hsame. now rewrite (process_row_bad_url RS remote fetch_from_page api_key site_id n
                                 dry r w U). }
  destruct (row_price r) as [price |] eqn:P.
  2:{ apply Hsame. now rewrite (process_row_bad_price RS remote fetch_from_page api_key site_id
                                 n dry r w U P). }
  destruct (to_float_kg_cases (rget r "peso_kg")) as [[v Hv] | Hv].
  2:{ apply Hsame. now rewrite (process_row_bad_weight RS remote fetch_from_page api_key site_id
                                 n dry r price w U P Hv). }
  destruct dry.
  - apply Hsame. now rewrite (process_row_dry RS remote fetch_from_page api_key site_id n r price
                                v w U P Hv).
  - destruct (process_row_live RS remote fetch_from_page api_key site_id n r price v w U P Hv)
      as [q [rest [o [c [Hs [_ [He [_ [_ [F _]]]]]]]]]].
    exists (q :: rest). split; [exact Hs |]. constructor; [congruence |].
    eapply Forall_impl; [| exact F]. unfold product_untouched. intros q' Hq' Hx.
    rewrite Hx in Hq'. exact Hq'.
Qed.

Lemma run_rows_no_query api_key site_id dry rows :
  appends_only (fun q => rq_endpoint q <> EP_products_query)
    (run_rows RS remote fetch_from_page api_key site_id dry rows).
Proof.
  induction rows as [| [n r] rows IH]; simpl; [apply ao_ret |].
  apply ao_bind; [apply process_row_no_query | intro].
  apply ao_bind; [exact IH | intro; apply ao_ret].
Qed.

(** A run of [main] sends a product query only as its first request, the
    precheck, and none at all with [SKIP_PRECHECK=1]: the rows never
    look up existing products. *)
Theorem main_product_queries env raws (w : world RS) :
  exists l,
    w_sent RS (fst (main RS remote fetch_from_page env raws w)) = w_sent RS w ++ l
    /\ Forall (fun q => rq_endpoint q <> EP_products_query) (tl l)
    /\ (getenv_strip env "SKIP_PRECHECK" "0" = "1"%string ->
        Forall (fun q => rq_endpoint q <> EP_products_query) l).
Proof.
  unfold main. cbv zeta.
  set (api_key := getenv_strip env "WIX_API_KEY" "").
  set (site_id := getenv_strip env "WIX_SITE_ID" "").
  set (dry := String.eqb (getenv_strip env "DRY_RUN" "0") "1").
  assert (Hrest : forall ok, appends_only (fun q => rq_endpoint q <> EP_products_query)
    (if negb ok then throw (SystemExit 3)
     else res <- run_rows RS remote fetch_from_page api_key site_id dry (read_rows raws) ;;
          match snd res with
          | [] => if negb (String.eqb (getenv_strip env "DRY_RUN" "0") "1")
                  then throw (SystemExit 2) else ret tt
          | _ => ret tt
          end)).
  { intro ok. destruct (negb ok); [apply ao_throw |].
    apply ao_bind; [apply run_rows_no_query | intro]. effects. }
  destruct (String.eqb api_key "" || String.eqb site_id "").
  { exists []. simpl. rewrite app_nil_r. repeat split; constructor. }
  destruct (String.eqb (getenv_strip env "SKIP_PRECHECK" "0") "1") eqn:Esk.
  - destruct (Hrest true w) as [l [Hl F]].
    exists l. split; [exact Hl | split; [| intros _; exact F]].
    destruct l; simpl; [constructor | now inversion F].
  - unfold bind at 1.
    destruct (precheck_one_request RS remote api_key site_id w)
      as [q [b [Hs [_ [Hq [_ Hb]]]]]].
    destruct (precheck RS remote api_key site_id w) as [w1 r1]. simpl in Hs, Hb. subst r1.
    destruct (Hrest b w1) as [l [Hl F]].
    exists (q :: l). split; [etransitivity; [exact Hl |]; rewrite Hs; now rewrite <- app_assoc |].
    split; [exact F |]. intro Hx. apply String.eqb_eq in Hx. congruence.
Qed.

End Queries.

(** *** Runs of the further properties *)

(** The English description with hits wins over a longer Italian one;
    the short text is never chosen. *)
Lemma prefer_english_choice_witness :
  prefer_english
    ["Preordine";
     "Statua in resina dipinta a mano, edizione limitata e numerata, con base illuminata a LED.";
     "Hand painted statue of the hero in 1/6 scale, includes a LED base and features 3 heads."]
  = Some "Hand painted statue of the hero in 1/6 scale, includes a LED base and features 3 heads."
  /\ (let texts :=
        ["Preordine";
         "Statua in resina dipinta a mano, edizione limitata e numerata, con base illuminata a LED.";
         "Hand painted statue of the hero in 1/6 scale, includes a LED base and features 3 heads."]
      in
      let t := "Hand painted statue of the hero in 1/6 scale, includes a LED base and features 3 heads." in
      In t texts /\ long_text t = true
      /\ (forall t', In t' texts -> long_text t' = true -> english_score t' <= english_score t)%nat
      /\ exists pre post, texts = pre ++ t :: post
           /\ forall t', In t' pre -> long_text t' = true ->
                         (english_score t' < english_score t)%nat).
Proof.
  split; [vm_compute; reflexivity |].
  apply prefer_english_choice. vm_compute. reflexivity.
Defined.

(** A 503 answer raises [RuntimeError] with the status and the text. *)
Lemma wix_request_error_witness :
  exists t,
    wix_request unit (fun u _ => (u, Response 503%Z "Service Unavailable" None))
      "POST" EP_products_query "key" "site" None {| w_remote := tt; w_sent := [] |}
    = ({| w_remote := tt;
          w_sent := [] ++ [{| rq_method := "POST"; rq_endpoint := EP_products_query;
                              rq_api_key := "key"; rq_site_id := "site";
                              rq_body := option_map prune None |}] |},
       Raise (RuntimeError "POST" EP_products_query 503%Z t))
    /\ (String.length t <= 1200)%nat /\ String.prefix t "Service Unavailable" = true.
Proof.
  apply (wix_request_error unit (fun u _ => (u, Response 503%Z "Service Unavailable" None))
           "POST" EP_products_query "key" "site" None {| w_remote := tt; w_sent := [] |}
           tt 503%Z "Service Unavailable" None); [reflexivity | lia].
Defined.

(** Scenario A is created as [prod-1]; the ftp row after it is skipped
    and adds nothing to [created]. *)
Lemma run_rows_created_witness :
  List.length [RowCreated (JStr "prod-1"); RowInvalidUrl] = List.length (read_rows [row_A; row_C])
  /\ map (fun e => (ce_row e, ce_id e)) [entry_A]
     = flat_map (fun no => match snd no with RowCreated pid => [(fst no, pid)] | _ => [] end)
                (combine (map fst (read_rows [row_A; row_C]))
                         [RowCreated (JStr "prod-1"); RowInvalidUrl]).
Proof.
  apply (run_rows_created store step no_page "key" "site" false (read_rows [row_A; row_C])
           start [RowCreated (JStr "prod-1"); RowInvalidUrl] [entry_A]).
  vm_compute. reflexivity.
Defined.

Lemma run_rows_one_create_per_row_witness :
  exists l,
    w_sent store (fst (run_rows store step no_page "key" "site" false
                         (read_rows [row_A; row_B; row_C; row_D]) start))
    = w_sent store start ++ concat l
    /\ Forall2 (fun nr l => row_requests_ok (snd nr) l) (read_rows [row_A; row_B; row_C; row_D]) l.
Proof.
  apply (run_rows_one_create_per_row store step no_page "key" "site"
           (read_rows [row_A; row_B; row_C; row_D]) start).
  repeat (apply Forall_cons; [exists None; vm_compute; reflexivity |]).
  apply Forall_nil.
Defined.

(** A row with an image and a category: after its create, the media
    request and the two catalogue queries concern the new product. *)
Lemma created_row_requests_witness :
  exists q rest,
    w_sent store (fst (process_row store step no_page "key" "site" false 5%Z row_F start))
    = w_sent store start ++ q :: rest
    /\ rq_endpoint q = EP_products /\ rq_method q = "POST"
    /\ Forall (attach_request (JStr "prod-1")) rest.
Proof.
  apply (created_row_requests store step no_page "key" "site" 5%Z row_F start
           (JStr "prod-1") (Some entry_F)).
  vm_compute. reflexivity.
Defined.

(** A 2xx answer whose ["product"] is [null]: [AttributeError], the
    create error branch. *)
Lemma try_create_answer_witness :
  snd (try_create unit
         (fun u _ => (u, Response 200%Z "{product: null}" (Some (JObj [("product", JNull)]))))
         "key" "site" (JObj []) {| w_remote := tt; w_sent := [] |})
  = Ok (inr AttributeError).
Proof.
  exact (try_create_answer unit
           (fun u _ => (u, Response 200%Z "{product: null}" (Some (JObj [("product", JNull)]))))
           "key" "site" (JObj []) {| w_remote := tt; w_sent := [] |} tt 200%Z
           "{product: null}" (JObj [("product", JNull)]) eq_refl
           ltac:(reflexivity) ltac:(decide_concrete)).
Defined.
